(** * Question answering using a search API and re-ranking

    A shallow embedding of the notebook
    [examples/Question_answering_using_a_search_API.ipynb]: query expansion,
    the search loop with de-duplication by URL, re-ranking by similarity to a
    hypothetical answer, and the streamed final answer.

    Part I holds the model (Python values and builtins first, then the
    notebook's cells); Part II holds the properties.

    Modelling choices.  Values that come out of JSON are dynamically typed,
    as in Python, and an operation applied to a value of the wrong type
    raises.  A score is a finite float, treated as the rational it is: the
    notebook only compares scores.  The arithmetic of [numpy.dot] is left to
    the collaborator that provides it.  A text is held as its UTF-8 bytes and
    cut by characters (code points), as Python cuts it.  The [print]
    statements at the end of the search and ranking cells are modelled apart,
    in [Printing]. *)

From Stdlib Require Import List String Ascii Bool Arith ZArith QArith Lia.
From Stdlib Require Import Permutation Sorted.
Import ListNotations.
Close Scope Q_scope.
Set Warnings "-register-all".
Open Scope list_scope.

(* ================================================================== *)
(** * Part I: the model *)
(* ================================================================== *)

(** ** Python's [dict]

    A [dict] keeps its entries in insertion order.  Assigning to a key that is
    already present replaces the value where the key stands; a new key goes
    to the end.  Order and overwriting both matter to the notebook, so a
    [dict] is an association list without repeated keys. *)

Module PyDict.

Section Dict.
Context {K V : Type}.
Variable eq_dec : forall a b : K, {a = b} + {a <> b}.

(** [d[k]], [None] standing for [KeyError]. *)
Fixpoint getitem (k : K) (d : list (K * V)) : option V :=
  match d with
  | [] => None
  | (k', v) :: d' => if eq_dec k k' then Some v else getitem k d'
  end.

(** [d[k] = v]. *)
Fixpoint setitem (k : K) (v : V) (d : list (K * V)) : list (K * V) :=
  match d with
  | [] => [(k, v)]
  | (k', v') :: d' =>
      if eq_dec k k' then (k', v) :: d' else (k', v') :: setitem k v d'
  end.

(** [d.keys()] and [d.values()], in the dict's order. *)
Definition keys (d : list (K * V)) : list K := map fst d.
Definition values (d : list (K * V)) : list V := map snd d.

(** [{k: v for (k, v) in pairs}]: the pairs are stored one after the
    other, starting from the empty dict.  A dict display
    [{k1: v1, k2: v2}] is the same thing on a literal list of pairs. *)
Definition from_pairs (pairs : list (K * V)) : list (K * V) :=
  fold_left (fun d p => setitem (fst p) (snd p) d) pairs [].

(** [d.get(k, default)]. *)
Definition get (k : K) (default : V) (d : list (K * V)) : V :=
  match getitem k d with
  | Some v => v
  | None => default
  end.

(** Reference orderings used to state what a comprehension keeps: the
    keys of a list in the order in which each one first occurs, and the
    last pair of a list that carries a given key. *)
Fixpoint first_occurrences (l : list K) : list K :=
  match l with
  | [] => []
  | k :: l' =>
      k :: filter (fun k' => if eq_dec k k' then false else true)
                  (first_occurrences l')
  end.

Definition last_with_key (k : K) (pairs : list (K * V)) : option V :=
  option_map snd
    (find (fun p => if eq_dec k (fst p) then true else false) (rev pairs)).
End Dict.

End PyDict.

(** ** Python values and the builtins the notebook uses *)

Module Py.

(** What [json.loads] and [response.json()] can return.  A finite JSON
    number is a rational; a [str] is the [string] of its UTF-8 bytes, as
    Rocq reads a string literal, and its characters are the code points
    these bytes encode (see [take_chars]). *)
Inductive value : Type :=
| VNone
| VBool (b : bool)
| VNum (q : Q)
| VStr (s : string)
| VList (l : list value)
| VDict (d : list (string * value)).

(** The exceptions that can end a cell.  [LibraryError] is an exception
    raised inside a library call (a JSON decoding error, an HTTP or API
    failure); [Exception] is the notebook's own [raise Exception(arg)]. *)
Inductive exn : Type :=
| KeyError (key : string)
| TypeError
| AttributeError
| IndexError
| LibraryError (what : string)
| Exception (arg : value).

(** A computation that returns or raises. *)
Definition result (A : Type) : Type := (exn + A)%type.

Definition ret {A : Type} (a : A) : result A := inr a.
Definition raise {A : Type} (e : exn) : result A := inl e.
Definition bind {A B : Type} (c : result A) (k : A -> result B) : result B :=
  match c with
  | inl e => inl e
  | inr a => k a
  end.

Notation "x <- c ;; k" := (bind c (fun x => k))
  (at level 61, c at next level, right associativity).

(** A list comprehension (or a loop that only appends) whose body may
    raise: elements are evaluated left to right and the first exception
    ends the comprehension. *)
Fixpoint mapM {A B : Type} (f : A -> result B) (l : list A) : result (list B) :=
  match l with
  | [] => ret []
  | a :: l' => b <- f a ;; bs <- mapM f l' ;; ret (b :: bs)
  end.

(** [v[k]] for a string key [k]. *)
Definition subscript (v : value) (k : string) : result value :=
  match v with
  | VDict d =>
      match PyDict.getitem string_dec k d with
      | Some x => ret x
      | None => raise (KeyError k)
      end
  | _ => raise TypeError
  end.

(** The characters of a [str].  In UTF-8 a code point is one byte that is
    not of the form [10xxxxxx], followed by its continuation bytes, which
    are of that form. *)
Definition is_continuation (c : ascii) : bool :=
  match c with
  | Ascii _ _ _ _ _ _ b6 b7 => b7 && negb b6
  end.

(** The number of characters of a text. *)
Fixpoint char_count (s : string) : nat :=
  match s with
  | EmptyString => 0
  | String c s' => if is_continuation c then char_count s' else S (char_count s')
  end.

(** [s[0:n]] on a [str]: the first [n] characters, each with all of its
    bytes. *)
Fixpoint take_chars (n : nat) (s : string) : string :=
  match s with
  | EmptyString => EmptyString
  | String c s' =>
      if is_continuation c then String c (take_chars n s')
      else match n with
           | 0 => EmptyString
           | S n' => String c (take_chars n' s')
           end
  end.

(** [s[n:]] on a [str]: what [s[0:n]] leaves. *)
Fixpoint drop_chars (n : nat) (s : string) : string :=
  match s with
  | EmptyString => EmptyString
  | String c s' =>
      if is_continuation c then drop_chars n s'
      else match n with
           | 0 => s
           | S n' => drop_chars n' s'
           end
  end.

(** The text has ASCII characters only: one byte each. *)
Fixpoint all_ascii (s : string) : bool :=
  match s with
  | EmptyString => true
  | String (Ascii _ _ _ _ _ _ _ b7) s' => negb b7 && all_ascii s'
  end.

(** [v[0:n]]. *)
Definition slice_to (v : value) (n : nat) : result value :=
  match v with
  | VStr s => ret (VStr (take_chars n s))
  | VList l => ret (VList (firstn n l))
  | _ => raise TypeError
  end.

(** [l[0]] on a list. *)
Definition index0 {A : Type} (l : list A) : result A :=
  match l with
  | [] => raise IndexError
  | a :: _ => ret a
  end.

(** [v == s] for a string literal [s]. *)
Definition eq_str (v : value) (s : string) : bool :=
  match v with
  | VStr s' => String.eqb s' s
  | _ => false
  end.

(** [l + v] where [l] is a list. *)
Definition list_add (l : list value) (v : value) : result (list value) :=
  match v with
  | VList l' => ret (l ++ l')
  | _ => raise TypeError
  end.

(** [v.append(x)]: the list [v] with [x] added at its end. *)
Definition list_append (v x : value) : result (list value) :=
  match v with
  | VList l => ret (l ++ [x])
  | _ => raise AttributeError
  end.

(** [text += v] where [text] is a [str]. *)
Definition str_iadd (text : string) (v : value) : result string :=
  match v with
  | VStr s => ret (text ++ s)%string
  | _ => raise TypeError
  end.

(** [str(v)], as a replacement field [{v}] of an f-string formats it: a
    [str] is itself, anything else is its [repr]. *)
Definition str (repr : value -> string) (v : value) : string :=
  match v with
  | VStr s => s
  | _ => repr v
  end.

(** Dict keys.  Only hashable values can be keys, and keys are compared
    with [==]: [True == 1] and [1 == 1.0], so numbers are kept in reduced
    form and booleans as numbers. *)
Inductive hkey : Type :=
| HNone
| HNum (q : Q)
| HStr (s : string).

Definition hash_key (v : value) : result hkey :=
  match v with
  | VNone => ret HNone
  | VBool b => ret (HNum (if b then 1%Q else 0%Q))
  | VNum q => ret (HNum (Qred q))
  | VStr s => ret (HStr s)
  | VList _ | VDict _ => raise TypeError
  end.

Definition Q_eq_dec (a b : Q) : {a = b} + {a <> b}.
Proof. decide equality; [apply Pos.eq_dec | apply Z.eq_dec]. Defined.

Definition hkey_eq_dec (a b : hkey) : {a = b} + {a <> b}.
Proof. decide equality; [apply Q_eq_dec | apply string_dec]. Defined.

(** Python's [<] on finite floats, which compare as the rationals they
    are. *)
Definition float_lt (x y : Q) : bool := negb (Qle_bool y x).

End Py.

(** ** Python's [sorted]

    [sorted(iterable, key=key, reverse=reverse)] is a stable sort that
    compares keys with [<] only; with [reverse=True] the elements are sorted
    as if each comparison were reversed, and stability is kept.  Any stable
    sort returns the same list, so insertion is used here. *)

Module PySort.

Section Sort.
Context {A : Type}.
Variable key : A -> Q.
Variable reverse : bool.

(** [x] has to come strictly before [y]. *)
Definition precedes (x y : A) : bool :=
  if reverse then Py.float_lt (key y) (key x) else Py.float_lt (key x) (key y).

(** [x] came before every element of the sorted list [l] in the input:
    it passes only the elements that strictly precede it. *)
Fixpoint insert (x : A) (l : list A) : list A :=
  match l with
  | [] => [x]
  | y :: l' => if precedes y x then y :: insert x l' else x :: l
  end.

Fixpoint sorted (l : list A) : list A :=
  match l with
  | [] => []
  | x :: l' => insert x (sorted l')
  end.

(** [x] may stand before [y] in a sorted list: [y] does not have to come
    strictly first. *)
Definition in_order (x y : A) : Prop := precedes y x = false.
End Sort.

End PySort.

(** ** The collaborators of the notebook

    The notebook calls a chat model, an embedding model and a news search
    endpoint, parses JSON, multiplies vectors with numpy and formats values
    with Python's [repr].  None of that code is the notebook's; each is a
    field of [capabilities], and every definition below takes them from
    there. *)

Module Notebook.
Import Py.
Open Scope string_scope.
Open Scope list_scope.

(** A vector of floats. *)
Definition vector : Type := list Q.

(** The arguments of [openai.ChatCompletion.create]. *)
Record chat_request : Type := {
  model : string;
  messages : list (string * string);      (* role, content *)
  temperature : Q;
  stream : bool
}.

(** The query string of the GET request to the news endpoint. *)
Record news_params : Type := {
  q : value;
  apiKey : option string;
  pageSize : nat;
  sortBy : string;
  from : string;
  to : string
}.

(** One fragment of a streamed completion: [chunk.choices[0].delta]. *)
Record chunk : Type := {
  delta : list (string * value)
}.

Record capabilities : Type := {
  (** [openai.ChatCompletion.create(...)] without streaming, up to
      [completion.choices[0].message.content]. *)
  chat_completion : chat_request -> result string;
  (** The same call with [stream=True]: the fragments, in arrival order. *)
  chat_completion_stream : chat_request -> result (list chunk);
  (** [json.loads]. *)
  json_loads : string -> result value;
  (** [requests.get(url, params=params)] followed by [response.json()]. *)
  requests_get_json : string -> news_params -> result value;
  (** The embedding model of a given name: the vector it gives one input
      text. *)
  embedding_model : string -> string -> vector;
  (** [numpy.dot] on two vectors (floating point, not modelled). *)
  numpy_dot : vector -> vector -> result Q;
  (** Python's [repr]. *)
  repr : value -> string;
  (** [os.getenv] of the news key: unset, or a string. *)
  news_api_key : option string
}.

(** The newline and the double quote of the prompts' literals. *)
Definition nl : string := String (ascii_of_nat 10) EmptyString.
Definition dq : string := String (ascii_of_nat 34) EmptyString.

Definition GPT_MODEL : string := "gpt-3.5-turbo".

(** The question of the notebook as it stands; the cells below take the
    question as an argument. *)
Definition NBA_QUESTION : string :=
  "Who won the NBA championship? And who was the MVP? Tell me a bit about the last game.".

Section Cells.
Variable env : capabilities.
Variable USER_QUESTION : string.

(** *** Helper functions *)

Definition json_gpt (input : string) : result value :=
  text <- chat_completion env
            {| model := GPT_MODEL;
               messages := [("system", "Output only valid JSON");
                            ("user", input)];
               temperature := 1 # 2;
               stream := false |} ;;
  parsed <- json_loads env text ;;
  ret parsed.

(** An input of the embedding endpoint has to be a text. *)
Definition as_text (v : value) : result string :=
  match v with
  | VStr s => ret s
  | _ => raise (LibraryError "InvalidRequestError")
  end.

(** [openai.Embedding.create(model=model, input=input)], up to
    [response.data]: one vector per input text, in input order; a single
    string is one input. *)
Definition Embedding_create (model : string) (input : value) : result (list vector) :=
  match input with
  | VStr s => ret [embedding_model env model s]
  | VList l => texts <- mapM as_text l ;; ret (map (embedding_model env model) texts)
  | _ => raise (LibraryError "InvalidRequestError")
  end.

Definition embeddings (input : value) : result (list vector) :=
  data <- Embedding_create "text-embedding-ada-002" input ;;
  ret (map (fun embedding => embedding) data).

(** *** 1. Search *)

Definition QUERIES_INPUT : string :=
  (nl
   ++ "You have access to a search API that returns recent news articles." ++ nl
   ++ "Generate an array of search queries that are relevant to this question." ++ nl
   ++ "Use a variation of related keywords for the queries, trying to be as general as possible." ++ nl
   ++ "Include as many queries as you can think of, including and excluding terms." ++ nl
   ++ "For example, include queries like ['keyword_1 keyword_2', 'keyword_1', 'keyword_2']." ++ nl
   ++ "Be creative. The more queries you include, the more likely you are to find relevant results." ++ nl
   ++ nl
   ++ "User question: " ++ USER_QUESTION ++ nl
   ++ nl
   ++ "Format: {" ++ dq ++ "queries" ++ dq ++ ": [" ++ dq ++ "query_1" ++ dq
   ++ ", " ++ dq ++ "query_2" ++ dq ++ ", " ++ dq ++ "query_3" ++ dq ++ "]}" ++ nl)%string.

(** [queries = json_gpt(QUERIES_INPUT)["queries"]] and
    [queries.append(USER_QUESTION)]; the loop that follows iterates over
    the list. *)
Definition queries : result (list value) :=
  parsed <- json_gpt QUERIES_INPUT ;;
  generated <- subscript parsed "queries" ;;
  list_append generated (VStr USER_QUESTION).

(** The state of the search cell: the variable [articles], and the
    requests sent to the endpoint so far, oldest first. *)
Record search_state : Type := {
  st_articles : list value;
  st_requests : list news_params
}.

Definition search_params (query : value) : news_params :=
  {| q := query;
     apiKey := news_api_key env;
     pageSize := 50;
     sortBy := "relevancy";
     from := "2023-06-01";
     to := "2023-06-30" |}.

(** [search_news(query)] sends one request and returns the parsed body. *)
Definition search_news (query : value) (sent : list news_params)
  : result value * list news_params :=
  (requests_get_json env "https://newsapi.org/v2/everything" (search_params query),
   sent ++ [search_params query]).

(** The body of [for query in tqdm(queries)]: the new state, and the
    exception if one is raised. *)
Definition search_step (query : value) (st : search_state)
  : search_state * option exn :=
  let (response, sent) := search_news query (st_requests st) in
  let outcome :=
    result <- response ;;
    status <- subscript result "status" ;;
    if eq_str status "ok" then
      found <- subscript result "articles" ;;
      list_add (st_articles st) found
    else
      message <- subscript result "message" ;;
      raise (Exception message) in
  match outcome with
  | inr articles => ({| st_articles := articles; st_requests := sent |}, None)
  | inl e => ({| st_articles := st_articles st; st_requests := sent |}, Some e)
  end.

Fixpoint search_loop (queries : list value) (st : search_state)
  : search_state * option exn :=
  match queries with
  | [] => (st, None)
  | query :: rest =>
      match search_step query st with
      | (st', None) => search_loop rest st'
      | (st', Some e) => (st', Some e)
      end
  end.

(** [article["url"]] as a dict key. *)
Definition url_key (article : value) : result hkey :=
  url <- subscript article "url" ;;
  hash_key url.

(** [list({article["url"]: article for article in articles}.values())] *)
Definition remove_duplicates (articles : list value) : result (list value) :=
  pairs <- mapM (fun article => k <- url_key article ;; ret (k, article)) articles ;;
  ret (PyDict.values (PyDict.from_pairs hkey_eq_dec pairs)).

(** The cell from [articles = []] to the de-duplication.  The prints that
    follow only show the result. *)
Definition search_cell (queries : list value) : search_state * option exn :=
  match search_loop queries {| st_articles := []; st_requests := [] |} with
  | (st, Some e) => (st, Some e)
  | (st, None) =>
      match remove_duplicates (st_articles st) with
      | inr articles =>
          ({| st_articles := articles; st_requests := st_requests st |}, None)
      | inl e => (st, Some e)
      end
  end.

(** *** 2. Re-rank *)

Definition HA_INPUT : string :=
  (nl
   ++ "Generate a hypothetical answer to the user's question. This answer will be used to rank search results. " ++ nl
   ++ "Pretend you have all the information you need to answer, but don't use any actual facts. Instead, use placeholders" ++ nl
   ++ "like NAME did something, or NAME said something at PLACE. " ++ nl
   ++ nl
   ++ "User question: " ++ USER_QUESTION ++ nl
   ++ nl
   ++ "Format: {" ++ dq ++ "hypotheticalAnswer" ++ dq ++ ": " ++ dq
   ++ "hypothetical answer text" ++ dq ++ "}" ++ nl)%string.

Definition hypothetical_answer : result value :=
  parsed <- json_gpt HA_INPUT ;;
  subscript parsed "hypotheticalAnswer".

Definition hypothetical_answer_embedding (answer : value) : result vector :=
  vectors <- embeddings answer ;;
  index0 vectors.

(** [f"{article['title']} {article['description']} {article['content'][0:100]}"] *)
Definition article_text (article : value) : result string :=
  title <- subscript article "title" ;;
  description <- subscript article "description" ;;
  content <- subscript article "content" ;;
  head <- slice_to content 100 ;;
  ret (str (repr env) title ++ " " ++ str (repr env) description ++ " "
         ++ str (repr env) head)%string.

Definition article_embeddings (articles : list value) : result (list vector) :=
  texts <- mapM article_text articles ;;
  embeddings (VList (map VStr texts)).

(** The loop that appends [dot(hypothetical_answer_embedding, e)] for each
    article embedding [e]. *)
Definition cosine_similarities (answer_embedding : vector)
    (article_embeddings : list vector) : result (list Q) :=
  mapM (fun article_embedding => numpy_dot env answer_embedding article_embedding)
       article_embeddings.

(** [zip(articles, cosine_similarities)] *)
Definition scored_articles {A : Type} (articles : list A)
    (cosine_similarities : list Q) : list (A * Q) :=
  combine articles cosine_similarities.

(** [sorted(scored_articles, key=lambda x: x[1], reverse=True)] *)
Definition sorted_articles {A : Type} (scored : list (A * Q)) : list (A * Q) :=
  PySort.sorted (fun x => snd x) true scored.

(** The two re-ranking cells, from the de-duplicated articles and the
    hypothetical answer to the ranked pairs. *)
Definition rerank (articles : list value) (answer : value)
  : result (list (value * Q)) :=
  answer_embedding <- hypothetical_answer_embedding answer ;;
  vectors <- article_embeddings articles ;;
  similarities <- cosine_similarities answer_embedding vectors ;;
  ret (sorted_articles (scored_articles articles similarities)).

(** *** 3. Answer *)

(** One entry of [formatted_top_results]. *)
Definition format_result (article : value) : result value :=
  title <- subscript article "title" ;;
  description <- subscript article "description" ;;
  url <- subscript article "url" ;;
  ret (VDict (PyDict.from_pairs string_dec
                [("title", title); ("description", description); ("url", url)])).

Definition formatted_top_results (sorted : list (value * Q)) : result (list value) :=
  mapM (fun x : value * Q => let (article, _score) := x in format_result article)
       (firstn 5 sorted).

Definition ANSWER_INPUT (top_results : list value) : string :=
  (nl
   ++ "Generate an answer to the user's question based on the given search results. " ++ nl
   ++ "TOP_RESULTS: " ++ str (repr env) (VList top_results) ++ nl
   ++ "USER_QUESTION: " ++ USER_QUESTION ++ nl
   ++ nl
   ++ "Include as much information as possible in the answer. Reference the relevant search result urls as markdown links." ++ nl)%string.

Definition answer_request (top_results : list value) : chat_request :=
  {| model := GPT_MODEL;
     messages := [("user", ANSWER_INPUT top_results)];
     temperature := 1 # 2;
     stream := true |}.

(** The output area of the cell: what it shows, and whether
    [clear_output(wait=True)] has asked for it to be cleared when the next
    output arrives. *)
Record display_area : Type := {
  shown : list string;
  clear_pending : bool
}.

(** [display.clear_output(wait=True)] *)
Definition clear_output_wait (area : display_area) : display_area :=
  {| shown := shown area; clear_pending := true |}.

(** [display.display(display.Markdown(text))] *)
Definition display_markdown (text : string) (area : display_area) : display_area :=
  {| shown := (if clear_pending area then [] else shown area) ++ [text];
     clear_pending := false |}.

(** The state of the streaming loop: the variable [text] and the output
    area. *)
Record stream_state : Type := {
  text : string;
  area : display_area
}.

(** [chunk.choices[0].delta.get("content", "")]: the content of a
    fragment, the empty string when it has none. *)
Definition fragment (c : chunk) : value :=
  PyDict.get string_dec "content" (VStr "") (delta c).

(** The body of [for chunk in completion]. *)
Definition stream_step (c : chunk) (st : stream_state) : stream_state * option exn :=
  match str_iadd (text st) (fragment c) with
  | inr text' =>
      ({| text := text';
          area := display_markdown text' (clear_output_wait (area st)) |}, None)
  | inl e => (st, Some e)
  end.

Fixpoint stream_loop (completion : list chunk) (st : stream_state)
  : stream_state * option exn :=
  match completion with
  | [] => (st, None)
  | c :: rest =>
      match stream_step c st with
      | (st', None) => stream_loop rest st'
      | (st', Some e) => (st', Some e)
      end
  end.

(** The answer cell on the fragments of the completion: [text = ""] and
    the loop, on an output area that shows nothing yet. *)
Definition stream_answer (completion : list chunk) : stream_state * option exn :=
  stream_loop completion
    {| text := ""; area := {| shown := []; clear_pending := false |} |}.

(** The answer cell: the request sent, and the state the loop ends in. *)
Definition answer_cell (sorted : list (value * Q))
  : result (chat_request * (stream_state * option exn)) :=
  top_results <- formatted_top_results sorted ;;
  completion <- chat_completion_stream env (answer_request top_results) ;;
  ret (answer_request top_results, stream_answer completion).

(** The cells in notebook order, without the [print] statements that end
    the search and ranking cells; [Printing.notebook_printed] is the run
    with them.  A cell that raises ends the run. *)
Definition notebook : result (chat_request * (stream_state * option exn)) :=
  generated <- queries ;;
  match search_cell generated with
  | (_, Some e) => raise e
  | (st, None) =>
      answer <- hypothetical_answer ;;
      ranked <- rerank (st_articles st) answer ;;
      answer_cell ranked
  end.
End Cells.

(** *** Notions used to state the properties *)

(** The last article of [articles], in list order, whose URL is the key
    [k]. *)
Definition last_bearing (k : hkey) (articles : list value) : option value :=
  find (fun article =>
          match url_key article with
          | inr k' => if hkey_eq_dec k k' then true else false
          | inl _ => false
          end)
       (rev articles).

(** The position at which [k] first occurs in [l] (the length of [l] when
    it does not occur). *)
Fixpoint first_index (k : hkey) (l : list hkey) : nat :=
  match l with
  | [] => 0
  | k' :: l' => if hkey_eq_dec k k' then 0 else S (first_index k l')
  end.

(** Scores do not increase from [x] to [y]. *)
Definition descending {A : Type} (x y : A * Q) : Prop := (snd y <= snd x)%Q.

(** The pairs of a list that carry the score [s], in list order. *)
Definition with_score {A : Type} (s : Q) (l : list (A * Q)) : list (A * Q) :=
  filter (fun x => Qeq_bool (snd x) s) l.

(** The search for [query] is answered with status ["ok"] and the article
    list [found]. *)
Definition search_succeeds (env : capabilities) (query : value)
    (found : list value) : Prop :=
  exists response,
    requests_get_json env "https://newsapi.org/v2/everything" (search_params env query)
    = inr response
    /\ subscript response "status" = inr (VStr "ok")
    /\ subscript response "articles" = inr (VList found).

(** The search for [query] is answered with a status other than ["ok"]
    and the message field [message]. *)
Definition search_fails (env : capabilities) (query : value)
    (response message : value) : Prop :=
  requests_get_json env "https://newsapi.org/v2/everything" (search_params env query)
  = inr response
  /\ (exists status, subscript response "status" = inr status
                     /\ eq_str status "ok" = false)
  /\ subscript response "message" = inr message.

(** The article has these strings as its title, description and content. *)
Definition has_text_fields (article : value) (fields : string * string * string) : Prop :=
  let '(title, description, content) := fields in
  subscript article "title" = inr (VStr title)
  /\ subscript article "description" = inr (VStr description)
  /\ subscript article "content" = inr (VStr content).

(** The text of an article with single spaces between the three parts. *)
Definition spaced_text (fields : string * string * string) : string :=
  let '(title, description, content) := fields in
  (title ++ " " ++ description ++ " " ++ take_chars 100 content)%string.

(** The text of an article as a plain concatenation of the three parts,
    with nothing between them. *)
Definition concatenated_text (fields : string * string * string) : string :=
  let '(title, description, content) := fields in
  (title ++ description ++ take_chars 100 content)%string.

(** The article has these values as its title, description and URL. *)
Definition has_result_fields (article : value) (fields : value * value * value) : Prop :=
  let '(title, description, url) := fields in
  subscript article "title" = inr title
  /\ subscript article "description" = inr description
  /\ subscript article "url" = inr url.

(** The record with exactly the fields title, description and url. *)
Definition projected (fields : value * value * value) : value :=
  let '(title, description, url) := fields in
  VDict [("title", title); ("description", description); ("url", url)].

(** The contents of the fragments of a stream, one after the other. *)
Definition joined (fragments : list string) : string := String.concat "" fragments.

End Notebook.

(** ** A small world to run the notebook in

    Three articles, one of them found twice under the same URL with a newer
    title; an endpoint that knows two queries and the question, and answers
    anything else with an error; a model whose output parses to two queries
    and a hypothetical answer. *)

Module Fixture.
Import Py Notebook.
Open Scope string_scope.
Open Scope list_scope.

Definition article (title description content url : string) : value :=
  VDict [("title", VStr title); ("description", VStr description);
         ("content", VStr content); ("url", VStr url)].

Definition nuggets : value :=
  article "Nuggets win" "Denver beat Miami 94-89" "Denver won its first title."
          "https://example.com/nuggets".
Definition jokic : value :=
  article "Jokic named MVP" "Finals MVP" "Nikola Jokic was named MVP."
          "https://example.com/jokic".
Definition nuggets_updated : value :=
  article "Nuggets win first title" "Denver beat Miami 94-89" "Denver won its first title."
          "https://example.com/nuggets".
Definition parade : value :=
  article "Parade in Denver" "Fans celebrate" "Thousands watched the parade."
          "https://example.com/parade".

(** An article whose content is longer than 100 characters, several of
    them outside ASCII: 130 characters in 141 bytes. *)
Definition long_content : string :=
  "Nikola Jokić scored 28 points as Denver — the “Mile High City” — beat Miami 94–89 in Game 5 to win its first NBA title, fans said.".
Definition game_five : value :=
  article "Jokić leads Denver" "Game 5 report" long_content
          "https://example.com/game5".

Definition ok_response (found : list value) : value :=
  VDict [("status", VStr "ok"); ("totalResults", VNum (inject_Z (Z.of_nat (List.length found))));
         ("articles", VList found)].
Definition error_response : value :=
  VDict [("status", VStr "error"); ("code", VStr "rateLimited");
         ("message", VStr "You have made too many requests recently.")].

Definition endpoint (query : value) : value :=
  match query with
  | VStr s =>
      if String.eqb s "NBA finals" then ok_response [nuggets; jokic]
      else if String.eqb s "Finals MVP" then ok_response [nuggets_updated; parade]
      else if String.eqb s NBA_QUESTION then ok_response []
      else error_response
  | _ => error_response
  end.

Definition model_output : value :=
  VDict [("queries", VList [VStr "NBA finals"; VStr "Finals MVP"]);
         ("hypotheticalAnswer", VStr "TEAM NAME won. The MVP was PLAYER NAME.")].

Definition exact_dot (u v : vector) : Q :=
  fold_left Qplus (map (fun p => Qmult (fst p) (snd p)) (combine u v)) 0%Q.

Definition completion : list chunk :=
  [ {| delta := [("role", VStr "assistant"); ("content", VStr "")] |};
    {| delta := [("content", VStr "Denver")] |};
    {| delta := [("content", VStr " won.")] |};
    {| delta := [] |} ].

Definition env : capabilities :=
  {| chat_completion := fun _ => inr "model output";
     chat_completion_stream := fun _ => inr completion;
     json_loads := fun text =>
       if String.eqb text "model output" then inr model_output
       else inl (LibraryError "JSONDecodeError");
     requests_get_json := fun _ params => inr (endpoint (q params));
     embedding_model := fun _ s => [inject_Z (Z.of_nat (String.length s)); 1%Q];
     numpy_dot := fun u v => inr (exact_dot u v);
     repr := fun _ => "<repr>";
     news_api_key := Some "key" |}.

(** The accumulated articles of the two known queries, and their URLs. *)
Definition accumulated : list value := [nuggets; jokic; nuggets_updated; parade].
Definition accumulated_urls : list hkey :=
  [HStr "https://example.com/nuggets"; HStr "https://example.com/jokic";
   HStr "https://example.com/nuggets"; HStr "https://example.com/parade"].

End Fixture.

(** ** The printing statements

    The search cell and the ranking cell end with [print] statements that
    show the first five articles.  They write to the cell's output and can
    raise like any other statement; what was written before an exception
    stays written. *)

Module Printing.
Import Py Notebook.
Open Scope string_scope.
Open Scope list_scope.

(** A statement that writes to the output and may raise: from the text
    written so far to the text written afterwards and the outcome. *)
Definition io (A : Type) : Type := string -> string * result A.

Definition io_ret {A : Type} (a : A) : io A := fun out => (out, inr a).
Definition io_bind {A B : Type} (c : io A) (k : A -> io B) : io B :=
  fun out =>
    match c out with
    | (out', inr a) => k a out'
    | (out', inl e) => (out', inl e)
    end.

(** Evaluating an expression writes nothing. *)
Definition eval {A : Type} (r : result A) : io A := fun out => (out, r).

Definition write (s : string) : io unit := fun out => ((out ++ s)%string, inr tt).

Notation "x <~ c ;; k" := (io_bind c (fun x => k))
  (at level 61, c at next level, right associativity).

(** [for x in l: body(x)] *)
Fixpoint for_each {A : Type} (body : A -> io unit) (l : list A) : io unit :=
  match l with
  | [] => io_ret tt
  | a :: l' => _ <~ body a ;; for_each body l'
  end.

(** [v + s] for a string literal [s]. *)
Definition add_str (v : value) (s : string) : result value :=
  match v with
  | VStr s' => ret (VStr (s' ++ s)%string)
  | _ => raise TypeError
  end.

(** [len(l)] as a Python value. *)
Definition len (l : list value) : value :=
  VNum (inject_Z (Z.of_nat (List.length l))).

Section Prints.
Variable env : capabilities.

(** [print(a, b, ...)]: the arguments' [str], separated by spaces, and a
    newline. *)
Definition print (args : list value) : io unit :=
  write (String.concat " " (map (str (repr env)) args) ++ nl)%string.

(** The three prints both loops start with. *)
Definition print_article (article : value) : io unit :=
  title <~ eval (subscript article "title") ;;
  _ <~ print [VStr "Title:"; title] ;;
  description <~ eval (subscript article "description") ;;
  _ <~ print [VStr "Description:"; description] ;;
  content <~ eval (content <- subscript article "content" ;;
                   head <- slice_to content 100 ;;
                   add_str head "...") ;;
  print [VStr "Content:"; content].

(** The prints that end the search cell. *)
Definition search_prints (articles : list value) : io unit :=
  _ <~ print [VStr "Total number of articles:"; len articles] ;;
  _ <~ print [VStr "Top 5 articles of query 1:"; VStr nl] ;;
  for_each (fun article =>
              _ <~ print_article article ;;
              print [])
           (firstn 5 articles).

(** The prints that end the ranking cell. *)
Definition ranking_prints (sorted_articles : list (value * Q)) : io unit :=
  _ <~ print [VStr "Top 5 articles:"; VStr nl] ;;
  for_each (fun x : value * Q =>
              let (article, score) := x in
              _ <~ print_article article ;;
              _ <~ print [VStr "Score:"; VNum score] ;;
              print [])
           (firstn 5 sorted_articles).

(** The search cell with its prints: the state, the output and the
    exception if one is raised. *)
Definition search_cell_printed (queries : list value)
  : search_state * string * option exn :=
  match search_cell env queries with
  | (st, Some e) => (st, "", Some e)
  | (st, None) =>
      match search_prints (st_articles st) "" with
      | (out, inr _) => (st, out, None)
      | (out, inl e) => (st, out, Some e)
      end
  end.

(** The search cell as a statement of the run: it writes nothing before its
    prints. *)
Definition run_search_cell (queries : list value) : io search_state :=
  fun out =>
    match search_cell env queries with
    | (st, Some e) => (out, inl e)
    | (st, None) => (out, inr st)
    end.

(** The whole notebook with its prints: what the cells write, and the
    outcome of the run. *)
Definition notebook_printed (USER_QUESTION : string)
  : io (chat_request * (stream_state * option exn)) :=
  generated <~ eval (queries env USER_QUESTION) ;;
  st <~ run_search_cell generated ;;
  _ <~ search_prints (st_articles st) ;;
  answer <~ eval (hypothetical_answer env USER_QUESTION) ;;
  ranked <~ eval (rerank env (st_articles st) answer) ;;
  _ <~ ranking_prints ranked ;;
  eval (answer_cell env USER_QUESTION ranked).
End Prints.

(** *** Notions used to state the properties *)

(** What the loops print for an article with these strings as title,
    description and content. *)
Definition article_block (fields : string * string * string) : string :=
  let '(title, description, content) := fields in
  ("Title: " ++ title ++ nl
   ++ "Description: " ++ description ++ nl
   ++ "Content: " ++ take_chars 100 content ++ "..." ++ nl)%string.

End Printing.

(** ** Worlds in which something goes wrong *)

Module Faults.
Import Py Notebook.
Open Scope string_scope.
Open Scope list_scope.

(** An article whose content is null, one without a URL and one whose URL
    is a list. *)
Definition null_content : value :=
  VDict [("title", VStr "Photos"); ("description", VStr "A gallery");
         ("content", VNone); ("url", VStr "https://example.com/photos")].
Definition no_url : value :=
  VDict [("title", VStr "Untitled"); ("description", VStr "Nothing");
         ("content", VStr "Nothing.")].
Definition list_url : value :=
  VDict [("title", VStr "Untitled"); ("url", VList [VStr "https://example.com"])].

(** An endpoint that answers with an error status and no message. *)
Definition silent_error : value := VDict [("status", VStr "error")].

Definition with_endpoint (answer : value -> result value) : capabilities :=
  {| chat_completion := chat_completion Fixture.env;
     chat_completion_stream := chat_completion_stream Fixture.env;
     json_loads := json_loads Fixture.env;
     requests_get_json := fun _ params => answer (q params);
     embedding_model := embedding_model Fixture.env;
     numpy_dot := numpy_dot Fixture.env;
     repr := repr Fixture.env;
     news_api_key := news_api_key Fixture.env |}.

(** A model whose output is this text. *)
Definition with_model_output (text : string) : capabilities :=
  {| chat_completion := fun _ => inr text;
     chat_completion_stream := chat_completion_stream Fixture.env;
     json_loads := fun t =>
       if String.eqb t "{}" then inr (VDict [])
       else if String.eqb t "a string" then inr (VDict [("queries", VStr "NBA")])
       else inl (LibraryError "JSONDecodeError");
     requests_get_json := requests_get_json Fixture.env;
     embedding_model := embedding_model Fixture.env;
     numpy_dot := numpy_dot Fixture.env;
     repr := repr Fixture.env;
     news_api_key := news_api_key Fixture.env |}.

(** The de-duplicated sample articles and their text fields. *)
Definition deduplicated : list value :=
  [Fixture.nuggets_updated; Fixture.jokic; Fixture.parade].
Definition deduplicated_fields : list (string * string * string) :=
  [("Nuggets win first title", "Denver beat Miami 94-89", "Denver won its first title.");
   ("Jokic named MVP", "Finals MVP", "Nikola Jokic was named MVP.");
   ("Parade in Denver", "Fans celebrate", "Thousands watched the parade.")].

(** An endpoint that finds the article with the null content second. *)
Definition null_content_endpoint (query : value) : result value :=
  inr (Fixture.ok_response [Fixture.jokic; null_content; Fixture.parade]).

(** Seven articles: the first five have text fields, one of them a content
    of more than 100 characters; the sixth has a null content and the seventh
    neither description nor content. *)
Definition seven_articles : list value :=
  [Fixture.game_five; Fixture.nuggets_updated; Fixture.jokic; Fixture.parade;
   Fixture.nuggets; null_content; list_url].
Definition first_five_fields : list (string * string * string) :=
  [("Jokić leads Denver", "Game 5 report", Fixture.long_content);
   ("Nuggets win first title", "Denver beat Miami 94-89", "Denver won its first title.");
   ("Jokic named MVP", "Finals MVP", "Nikola Jokic was named MVP.");
   ("Parade in Denver", "Fans celebrate", "Thousands watched the parade.");
   ("Nuggets win", "Denver beat Miami 94-89", "Denver won its first title.")].

(** The seven articles ranked, with their scores. *)
Definition seven_ranked : list (value * Q) :=
  combine seven_articles [9 # 10; 8 # 10; 8 # 10; 7 # 10; 1 # 2; 1 # 4; 1 # 10]%Q.

(** A [repr] that tells the values of the samples apart. *)
Definition sample_repr (v : value) : string :=
  match v with
  | VNone => "None"
  | VNum (Qmake n d) =>
      match n, d with
      | 7%Z, 1%positive => "7"
      | 9%Z, 10%positive => "0.9"
      | 8%Z, 10%positive => "0.8"
      | 7%Z, 10%positive => "0.7"
      | 1%Z, 2%positive => "0.5"
      | _, _ => "<number>"
      end
  | _ => "<value>"
  end.

Definition with_repr (repr : value -> string) : capabilities :=
  {| chat_completion := chat_completion Fixture.env;
     chat_completion_stream := chat_completion_stream Fixture.env;
     json_loads := json_loads Fixture.env;
     requests_get_json := requests_get_json Fixture.env;
     embedding_model := embedding_model Fixture.env;
     numpy_dot := numpy_dot Fixture.env;
     repr := repr;
     news_api_key := news_api_key Fixture.env |}.

(** A stream whose third fragment has a null content. *)
Definition broken_completion : list chunk :=
  [ {| delta := [("content", VStr "Denver")] |};
    {| delta := [("content", VStr " won")] |};
    {| delta := [("content", VNone)] |};
    {| delta := [("content", VStr ".")] |} ].

End Faults.

(* ================================================================== *)
(** * Part II: properties *)
(* ================================================================== *)

Open Scope string_scope.
Open Scope list_scope.

(** ** Facts about [sorted] *)

Section SortFacts.
Context {A : Type}.
Variable key : A -> Q.
Variable reverse : bool.

Local Abbreviation precedes := (PySort.precedes key reverse).
Local Abbreviation insert := (PySort.insert key reverse).
Local Abbreviation sorted := (PySort.sorted key reverse).

Local Abbreviation in_order := (PySort.in_order key reverse).

Lemma float_lt_iff (x y : Q) : Py.float_lt x y = true <-> (x < y)%Q.
Proof.
  unfold Py.float_lt. rewrite negb_true_iff. split; intro H.
  - apply Qnot_le_lt. intro Hle. apply Qle_bool_iff in Hle. congruence.
  - destruct (Qle_bool y x) eqn:E; [|reflexivity].
    apply Qle_bool_iff in E. exfalso. exact (Qlt_not_le _ _ H E).
Qed.

Lemma float_lt_false_iff (x y : Q) : Py.float_lt x y = false <-> (y <= x)%Q.
Proof.
  unfold Py.float_lt. rewrite negb_false_iff. apply Qle_bool_iff.
Qed.

Lemma precedes_in_order (x y : A) : precedes x y = true -> in_order x y.
Proof.
  unfold PySort.in_order, PySort.precedes. destruct reverse; intro H;
    apply float_lt_iff in H; apply float_lt_false_iff; apply Qlt_le_weak; exact H.
Qed.

Lemma in_order_trans (x y z : A) : in_order x y -> in_order y z -> in_order x z.
Proof.
  unfold PySort.in_order, PySort.precedes. destruct reverse; intros H1 H2;
    apply float_lt_false_iff in H1; apply float_lt_false_iff in H2;
    apply float_lt_false_iff; eapply Qle_trans; eassumption.
Qed.

Lemma precedes_keys_differ (x y : A) (s : Q) :
  precedes y x = true -> Qeq_bool (key x) s = true -> Qeq_bool (key y) s = false.
Proof.
  unfold PySort.precedes. intros H Hx. apply Qeq_bool_iff in Hx.
  destruct (Qeq_bool (key y) s) eqn:Hy; [|reflexivity].
  apply Qeq_bool_iff in Hy. exfalso.
  destruct reverse; apply float_lt_iff in H; rewrite Hx, Hy in H;
    exact (Qlt_irrefl _ H).
Qed.

Lemma insert_perm (x : A) (l : list A) : Permutation (x :: l) (insert x l).
Proof.
  induction l as [|y l IH]; simpl.
  - apply Permutation_refl.
  - destruct (precedes y x).
    + eapply perm_trans; [apply perm_swap|]. apply perm_skip. exact IH.
    + apply Permutation_refl.
Qed.

Lemma sorted_perm (l : list A) : Permutation l (sorted l).
Proof.
  induction l as [|x l IH]; simpl.
  - apply perm_nil.
  - eapply perm_trans; [apply perm_skip; exact IH | apply insert_perm].
Qed.

Lemma insert_in_order (x : A) (l : list A) :
  StronglySorted in_order l -> StronglySorted in_order (insert x l).
Proof.
  induction l as [|y l IH]; simpl; intro Hs.
  - constructor; [constructor | constructor].
  - inversion Hs as [|? ? Hl Hy]; subst.
    destruct (precedes y x) eqn:E.
    + constructor; [apply IH; exact Hl|].
      apply Forall_forall. intros w Hw.
      apply (Permutation_in _ (Permutation_sym (insert_perm x l))) in Hw.
      destruct Hw as [<-|Hw].
      * apply precedes_in_order. exact E.
      * rewrite Forall_forall in Hy. apply Hy. exact Hw.
    + constructor; [exact Hs|].
      constructor; [exact E|].
      apply Forall_forall. intros w Hw.
      rewrite Forall_forall in Hy.
      apply in_order_trans with y; [exact E | apply Hy; exact Hw].
Qed.

Lemma sorted_in_order (l : list A) : StronglySorted in_order (sorted l).
Proof.
  induction l as [|x l IH]; simpl.
  - constructor.
  - apply insert_in_order. exact IH.
Qed.

(** Insertion passes no element with an equal key: among the elements of
    one key, the inserted one stays first. *)
Lemma filter_insert (s : Q) (x : A) (l : list A) :
  filter (fun a => Qeq_bool (key a) s) (insert x l)
  = filter (fun a => Qeq_bool (key a) s) (x :: l).
Proof.
  induction l as [|y l IH]; [reflexivity|].
  simpl PySort.insert. destruct (precedes y x) eqn:E; [|reflexivity].
  simpl. simpl in IH. rewrite IH.
  destruct (Qeq_bool (key x) s) eqn:Hx; [|reflexivity].
  rewrite (precedes_keys_differ x y s E Hx). reflexivity.
Qed.

Lemma filter_sorted (s : Q) (l : list A) :
  filter (fun a => Qeq_bool (key a) s) (sorted l)
  = filter (fun a => Qeq_bool (key a) s) l.
Proof.
  induction l as [|x l IH]; [reflexivity|].
  simpl PySort.sorted. rewrite filter_insert. simpl. rewrite IH. reflexivity.
Qed.
End SortFacts.

(** ** Facts about [dict] *)

Section DictFacts.
Context {K V : Type}.
Variable eq_dec : forall a b : K, {a = b} + {a <> b}.

Local Abbreviation getitem := (PyDict.getitem eq_dec).
Local Abbreviation setitem := (PyDict.setitem eq_dec).
Local Abbreviation from_pairs := (PyDict.from_pairs eq_dec).
Local Abbreviation first_occurrences := (PyDict.first_occurrences eq_dec).
Local Abbreviation last_with_key := (PyDict.last_with_key (V:=V) eq_dec).
Local Abbreviation keys := (@PyDict.keys K V).
Local Abbreviation store := (fun (d : list (K * V)) (p : K * V) => setitem (fst p) (snd p) d).

Lemma getitem_setitem_eq (k : K) (v : V) (d : list (K * V)) :
  getitem k (setitem k v d) = Some v.
Proof.
  induction d as [|[k' v'] d IH]; simpl.
  - destruct (eq_dec k k); congruence.
  - destruct (eq_dec k k') as [E|E]; simpl.
    + destruct (eq_dec k k'); congruence.
    + destruct (eq_dec k k'); congruence.
Qed.

Lemma getitem_setitem_neq (k k0 : K) (v : V) (d : list (K * V)) :
  k <> k0 -> getitem k (setitem k0 v d) = getitem k d.
Proof.
  intro N. induction d as [|[k' v'] d IH]; simpl.
  - destruct (eq_dec k k0); congruence.
  - destruct (eq_dec k0 k') as [E|E]; simpl.
    + destruct (eq_dec k k'); congruence.
    + destruct (eq_dec k k'); congruence.
Qed.

Lemma keys_setitem_in (k : K) (v : V) (d : list (K * V)) :
  In k (keys d) -> keys (setitem k v d) = keys d.
Proof.
  induction d as [|[k' v'] d IH]; simpl; intro H.
  - contradiction.
  - destruct (eq_dec k k') as [E|E]; simpl; [reflexivity|].
    f_equal. apply IH. destruct H as [H|H]; [congruence | exact H].
Qed.

Lemma keys_setitem_notin (k : K) (v : V) (d : list (K * V)) :
  ~ In k (keys d) -> keys (setitem k v d) = keys d ++ [k].
Proof.
  induction d as [|[k' v'] d IH]; simpl; intro H.
  - reflexivity.
  - destruct (eq_dec k k') as [E|E]; simpl.
    + exfalso. apply H. left. congruence.
    + f_equal. apply IH. intro H'. apply H. right. exact H'.
Qed.

Lemma filter_filter_pointwise {B : Type} (f g h : B -> bool) (l : list B) :
  (forall x, h x = f x && g x) -> filter g (filter f l) = filter h l.
Proof.
  intro E. induction l as [|x l IH]; simpl; [reflexivity|].
  rewrite E. destruct (f x); simpl; [destruct (g x)|]; rewrite IH; reflexivity.
Qed.

Lemma find_app {B : Type} (f : B -> bool) (l1 l2 : list B) :
  find f (l1 ++ l2) = match find f l1 with Some x => Some x | None => find f l2 end.
Proof.
  induction l1 as [|x l1 IH]; simpl; [reflexivity|].
  destruct (f x); [reflexivity | exact IH].
Qed.

(** The keys of a dict that has stored [pairs] on top of [d]: those of [d],
    then the new ones in the order in which each first occurs. *)
Lemma keys_fold_left (pairs : list (K * V)) (d : list (K * V)) :
  keys (fold_left store pairs d)
  = keys d ++ filter (fun k => if in_dec eq_dec k (keys d) then false else true)
                     (first_occurrences (map fst pairs)).
Proof.
  revert d. induction pairs as [|[k v] pairs IH]; intro d; simpl.
  - rewrite app_nil_r. reflexivity.
  - rewrite IH. destruct (in_dec eq_dec k (keys d)) as [I|I].
    + rewrite (keys_setitem_in k v d I). f_equal.
      rewrite filter_filter_pointwise
        with (h := fun k' => if in_dec eq_dec k' (keys d) then false else true);
        [reflexivity|].
      intro x. destruct (eq_dec k x) as [<-|N]; simpl.
      * destruct (in_dec eq_dec k (keys d)); [reflexivity | contradiction].
      * reflexivity.
    + rewrite (keys_setitem_notin k v d I). rewrite <- app_assoc. simpl.
      f_equal. f_equal.
      apply eq_sym. apply filter_filter_pointwise.
      intro x. destruct (eq_dec k x) as [<-|N]; simpl.
      * destruct (in_dec eq_dec k (keys d ++ [k])) as [_|N']; [reflexivity|].
        exfalso. apply N'. apply in_or_app. right. left. reflexivity.
      * destruct (in_dec eq_dec x (keys d ++ [k])) as [I1|I1];
          destruct (in_dec eq_dec x (keys d)) as [I2|I2]; try reflexivity.
        -- apply in_app_or in I1. destruct I1 as [I1|[I1|[]]]; congruence.
        -- exfalso. apply I1. apply in_or_app. left. exact I2.
Qed.

Lemma keys_from_pairs (pairs : list (K * V)) :
  keys (from_pairs pairs) = first_occurrences (map fst pairs).
Proof.
  unfold PyDict.from_pairs. rewrite keys_fold_left. simpl.
  induction (first_occurrences (map fst pairs)) as [|x l IH]; simpl; congruence.
Qed.

Lemma last_with_key_cons (k : K) (p : K * V) (pairs : list (K * V)) :
  last_with_key k (p :: pairs)
  = match last_with_key k pairs with
    | Some v => Some v
    | None => if eq_dec k (fst p) then Some (snd p) else None
    end.
Proof.
  unfold PyDict.last_with_key. simpl rev. rewrite find_app.
  destruct (find _ (rev pairs)); simpl; [reflexivity|].
  destruct (eq_dec k (fst p)); reflexivity.
Qed.

(** Looking a key up after storing [pairs]: the last pair with that key
    wins. *)
Lemma getitem_fold_left (k : K) (pairs : list (K * V)) (d : list (K * V)) :
  getitem k (fold_left store pairs d)
  = match last_with_key k pairs with
    | Some v => Some v
    | None => getitem k d
    end.
Proof.
  revert d. induction pairs as [|[k0 v0] pairs IH]; intro d.
  - reflexivity.
  - simpl fold_left. rewrite IH, last_with_key_cons. simpl.
    destruct (last_with_key k pairs); [reflexivity|].
    destruct (eq_dec k k0) as [->|N].
    + apply getitem_setitem_eq.
    + apply getitem_setitem_neq. exact N.
Qed.

Lemma getitem_from_pairs (k : K) (pairs : list (K * V)) :
  getitem k (from_pairs pairs) = last_with_key k pairs.
Proof.
  unfold PyDict.from_pairs. rewrite getitem_fold_left.
  destruct (last_with_key k pairs); reflexivity.
Qed.

Lemma In_first_occurrences (k : K) (l : list K) :
  In k (first_occurrences l) <-> In k l.
Proof.
  induction l as [|k0 l IH]; simpl; [tauto|].
  rewrite filter_In, IH. destruct (eq_dec k0 k) as [E|N].
  - split; [intros [H|[_ H]]; [auto | discriminate] | intros _; auto].
  - tauto.
Qed.

Lemma NoDup_first_occurrences (l : list K) : NoDup (first_occurrences l).
Proof.
  induction l as [|k0 l IH]; simpl; constructor.
  - rewrite filter_In. intros [_ H]. destruct (eq_dec k0 k0); congruence.
  - apply NoDup_filter. exact IH.
Qed.

(** In a dict, an entry is what looking its key up returns. *)
Lemma getitem_In (k : K) (v : V) (d : list (K * V)) :
  NoDup (keys d) -> In (k, v) d -> getitem k d = Some v.
Proof.
  induction d as [|[k' v'] d IH]; simpl; intros ND H; [contradiction|].
  inversion ND as [|? ? Hn ND']; subst.
  destruct H as [H|H].
  - inversion H; subst. destruct (eq_dec k k); congruence.
  - destruct (eq_dec k k') as [->|N]; [|apply IH; assumption].
    exfalso. apply Hn. change k' with (fst (k', v)). apply in_map. exact H.
Qed.

Lemma last_with_key_In (k : K) (v : V) (pairs : list (K * V)) :
  last_with_key k pairs = Some v -> In (k, v) pairs.
Proof.
  unfold PyDict.last_with_key. intro H.
  destruct (find _ (rev pairs)) as [[k' v']|] eqn:F; [|discriminate].
  apply find_some in F. destruct F as [I E]. simpl in *.
  destruct (eq_dec k k') as [->|]; [|discriminate].
  inversion H; subst. apply in_rev. exact I.
Qed.
End DictFacts.

(** ** Facts about computations that may raise *)

Section ResultFacts.
Import Py.
Context {A B : Type}.

Lemma bind_inr {X Y : Type} (c : result X) (k : X -> result Y) (b : Y) :
  bind c k = inr b -> exists a, c = inr a /\ k a = inr b.
Proof.
  destruct c as [e|a]; simpl; intro H; [discriminate|]. exists a. auto.
Qed.

Lemma mapM_Forall2 (f : A -> result B) (l : list A) (bs : list B) :
  mapM f l = inr bs <-> Forall2 (fun a b => f a = inr b) l bs.
Proof.
  revert bs. induction l as [|a l IH]; intro bs; simpl.
  - split; intro H.
    + inversion H. constructor.
    + inversion H. reflexivity.
  - split; intro H.
    + apply bind_inr in H. destruct H as (b & Hb & H).
      destruct (mapM f l) as [e|bs'] eqn:E; simpl in H; [discriminate|].
      inversion H; subst. constructor; [exact Hb | apply IH; reflexivity].
    + inversion H as [|? b ? bs' Hb Hl]; subst.
      rewrite Hb. simpl. apply IH in Hl. rewrite Hl. reflexivity.
Qed.

Lemma mapM_length (f : A -> result B) (l : list A) (bs : list B) :
  mapM f l = inr bs -> List.length bs = List.length l.
Proof.
  intro H. apply mapM_Forall2 in H. apply eq_sym. eapply Forall2_length. exact H.
Qed.
End ResultFacts.

(** ** De-duplication by URL *)

Section Deduplication.
Import Py Notebook.

Lemma Forall2_combine {X Y : Type} (R : X -> Y -> Prop) (l : list X) (l' : list Y) :
  Forall2 R l l' ->
  map fst (combine l' l) = l' /\ map snd (combine l' l) = l
  /\ Forall (fun p => R (snd p) (fst p)) (combine l' l).
Proof.
  induction 1 as [|x y l l' Hxy _ (I1 & I2 & I3)]; simpl.
  - repeat split; constructor.
  - rewrite I1, I2. repeat split. constructor; assumption.
Qed.

Lemma Forall2_fst_snd {X Y : Type} (R : X -> Y -> Prop) (d : list (X * Y)) :
  Forall (fun p => R (fst p) (snd p)) d -> Forall2 R (map fst d) (map snd d).
Proof.
  induction 1; simpl; constructor; assumption.
Qed.

(** The pairs the comprehension stores, when every article has a URL that
    can be a key. *)
Lemma url_pairs (articles : list value) (urls : list hkey) :
  mapM url_key articles = inr urls ->
  mapM (fun article => k <- url_key article ;; ret (k, article)) articles
  = inr (combine urls articles).
Proof.
  intro H. apply mapM_Forall2 in H. apply mapM_Forall2.
  induction H as [|a k l l' Hk _ IH]; simpl; constructor; [|exact IH].
  rewrite Hk. reflexivity.
Qed.

Lemma last_with_key_bearing (k : hkey) (pairs : list (hkey * value)) :
  Forall (fun p => url_key (snd p) = inr (fst p)) pairs ->
  option_map snd
    (find (fun p => if hkey_eq_dec k (fst p) then true else false) pairs)
  = find (fun article =>
            match url_key article with
            | inr k' => if hkey_eq_dec k k' then true else false
            | inl _ => false
            end)
         (map snd pairs).
Proof.
  induction 1 as [|[k' a] pairs Hk _ IH]; simpl; [reflexivity|].
  simpl in Hk. rewrite Hk. destruct (hkey_eq_dec k k'); [reflexivity | exact IH].
Qed.

Lemma last_with_key_last_bearing (k : hkey) (articles : list value) (urls : list hkey) :
  Forall2 (fun article u => url_key article = inr u) articles urls ->
  PyDict.last_with_key hkey_eq_dec k (combine urls articles) = last_bearing k articles.
Proof.
  intro H. destruct (Forall2_combine _ _ _ H) as (_ & E & F).
  unfold PyDict.last_with_key, last_bearing.
  rewrite last_with_key_bearing.
  - rewrite map_rev, E. reflexivity.
  - apply Forall_rev. exact F.
Qed.

(** What the de-duplication returns: the values of the dict, whose keys are
    the URLs in the order of their first occurrence, each with the last
    article that bears it. *)
Lemma remove_duplicates_spec (articles : list value) (urls : list hkey) :
  mapM url_key articles = inr urls ->
  exists out,
    remove_duplicates articles = inr out
    /\ mapM url_key out = inr (PyDict.first_occurrences hkey_eq_dec urls)
    /\ Forall2 (fun k article => last_bearing k articles = Some article)
               (PyDict.first_occurrences hkey_eq_dec urls) out.
Proof.
  intro H. pose proof (url_pairs _ _ H) as P.
  apply mapM_Forall2 in H.
  destruct (Forall2_combine _ _ _ H) as (E1 & E2 & F).
  set (pairs := combine urls articles) in *.
  set (d := PyDict.from_pairs hkey_eq_dec pairs).
  assert (K : PyDict.keys d = PyDict.first_occurrences hkey_eq_dec urls).
  { unfold d. rewrite keys_from_pairs, E1. reflexivity. }
  assert (ND : NoDup (PyDict.keys d)).
  { rewrite K. apply NoDup_first_occurrences. }
  assert (L : Forall (fun p => last_bearing (fst p) articles = Some (snd p)) d).
  { apply Forall_forall. intros [k a] I. simpl.
    rewrite <- (last_with_key_last_bearing k articles urls H).
    fold pairs. rewrite <- getitem_from_pairs. fold d.
    apply getitem_In; assumption. }
  exists (PyDict.values d). split; [|split].
  - unfold remove_duplicates. rewrite P. reflexivity.
  - rewrite <- K. apply mapM_Forall2. unfold PyDict.values, PyDict.keys.
    apply (Forall2_fst_snd (fun k a => url_key a = inr k)) in F as F'.
    assert (G : Forall (fun p => url_key (snd p) = inr (fst p)) d).
    { apply Forall_forall. intros [k a] I. simpl.
      rewrite Forall_forall in F. apply (F (k, a)).
      apply last_with_key_In with (eq_dec := hkey_eq_dec).
      rewrite <- getitem_from_pairs. fold d. apply getitem_In; assumption. }
    clear - G. induction G; simpl; constructor; assumption.
  - rewrite <- K. unfold PyDict.values, PyDict.keys.
    apply Forall2_fst_snd. exact L.
Qed.
End Deduplication.

Section DeduplicationOrder.
Import Py Notebook.

Lemma StronglySorted_filter {X : Type} (R R' : X -> X -> Prop) (f : X -> bool)
    (l : list X) :
  (forall a b, f a = true -> f b = true -> R' a b -> R a b) ->
  StronglySorted R' l -> StronglySorted R (filter f l).
Proof.
  intros I S. induction S as [|a l S IH F]; simpl; [constructor|].
  destruct (f a) eqn:Fa; [|exact IH].
  constructor; [exact IH|].
  apply Forall_forall. intros b Hb. apply filter_In in Hb. destruct Hb as [Hb Fb].
  rewrite Forall_forall in F. apply I; auto.
Qed.

(** [first_occurrences] lists the keys by the position of their first
    occurrence. *)
Lemma first_occurrences_by_first_index (urls : list hkey) :
  StronglySorted (fun a b => first_index a urls < first_index b urls)
                 (PyDict.first_occurrences hkey_eq_dec urls).
Proof.
  induction urls as [|k0 l IH]; simpl; [constructor|].
  constructor.
  - eapply StronglySorted_filter; [|exact IH].
    intros a b Fa Fb H. simpl in *.
    destruct (hkey_eq_dec k0 a) as [|Na]; [discriminate|].
    destruct (hkey_eq_dec k0 b) as [|Nb]; [discriminate|].
    destruct (hkey_eq_dec a k0); [congruence|].
    destruct (hkey_eq_dec b k0); [congruence|].
    lia.
  - apply Forall_forall. intros b Hb. apply filter_In in Hb. destruct Hb as [_ Fb].
    destruct (hkey_eq_dec k0 b) as [|Nb]; [discriminate|].
    destruct (hkey_eq_dec k0 k0); [|congruence].
    destruct (hkey_eq_dec b k0); [congruence|]. lia.
Qed.
End DeduplicationOrder.

Section DeduplicationClaims.
Import Py Notebook.

(** The de-duplication on the sample articles: the newer record of the
    repeated URL is kept, at the place of the older one. *)
Example remove_duplicates_sample :
  remove_duplicates Fixture.accumulated
  = inr [Fixture.nuggets_updated; Fixture.jokic; Fixture.parade].
Proof. reflexivity. Qed.

(** C2. For every accumulated article list in which each article has a URL
    (repeated URLs allowed), the de-duplication returns a list with exactly
    one article per distinct URL of the input: the URLs of the output have
    no repetition and are the same URLs as the input's, and each output
    article is the last article of the input, in input order, that bears its
    URL. *)
Theorem remove_duplicates_one_per_url (articles : list value) (urls : list hkey) :
  mapM url_key articles = inr urls ->
  exists out out_urls,
    remove_duplicates articles = inr out
    /\ mapM url_key out = inr out_urls
    /\ NoDup out_urls
    /\ (forall k, In k out_urls <-> In k urls)
    /\ Forall2 (fun k article => last_bearing k articles = Some article) out_urls out.
Proof.
  intro H. destruct (remove_duplicates_spec articles urls H) as (out & R & U & L).
  exists out, (PyDict.first_occurrences hkey_eq_dec urls).
  repeat split; try assumption.
  - apply NoDup_first_occurrences.
  - apply In_first_occurrences.
  - apply In_first_occurrences.
Qed.

Lemma remove_duplicates_one_per_url_witness :
  mapM url_key Fixture.accumulated = inr Fixture.accumulated_urls
  /\ exists out out_urls,
       remove_duplicates Fixture.accumulated = inr out
       /\ mapM url_key out = inr out_urls
       /\ NoDup out_urls
       /\ (forall k, In k out_urls <-> In k Fixture.accumulated_urls)
       /\ Forall2 (fun k article => last_bearing k Fixture.accumulated = Some article)
                  out_urls out.
Proof.
  split; [reflexivity|].
  apply (remove_duplicates_one_per_url Fixture.accumulated Fixture.accumulated_urls).
  reflexivity.
Defined.

(** C10. In the de-duplicated sequence the articles stand in the order in
    which their URLs first occur in the accumulated input: the URLs of the
    output are the input's URLs listed by first occurrence, so a URL that
    stands earlier in the output first occurs earlier in the input; the
    article kept for a URL is still the last one of the input that bears
    it. *)
Theorem remove_duplicates_first_occurrence_order (articles : list value)
    (urls : list hkey) :
  mapM url_key articles = inr urls ->
  exists out out_urls,
    remove_duplicates articles = inr out
    /\ mapM url_key out = inr out_urls
    /\ out_urls = PyDict.first_occurrences hkey_eq_dec urls
    /\ StronglySorted (fun a b => first_index a urls < first_index b urls) out_urls
    /\ Forall2 (fun k article => last_bearing k articles = Some article) out_urls out.
Proof.
  intro H. destruct (remove_duplicates_spec articles urls H) as (out & R & U & L).
  exists out, (PyDict.first_occurrences hkey_eq_dec urls).
  repeat split; try assumption.
  apply first_occurrences_by_first_index.
Qed.

Lemma remove_duplicates_first_occurrence_order_witness :
  mapM url_key Fixture.accumulated = inr Fixture.accumulated_urls
  /\ exists out out_urls,
       remove_duplicates Fixture.accumulated = inr out
       /\ mapM url_key out = inr out_urls
       /\ out_urls = PyDict.first_occurrences hkey_eq_dec Fixture.accumulated_urls
       /\ StronglySorted
            (fun a b => first_index a Fixture.accumulated_urls
                        < first_index b Fixture.accumulated_urls) out_urls
       /\ Forall2 (fun k article => last_bearing k Fixture.accumulated = Some article)
                  out_urls out.
Proof.
  split; [reflexivity|].
  apply (remove_duplicates_first_occurrence_order
           Fixture.accumulated Fixture.accumulated_urls).
  reflexivity.
Defined.
End DeduplicationClaims.

(** ** Re-ranking *)

Section Ranking.
Import Py Notebook.
Context {A : Type}.

Lemma in_order_descending (x y : A * Q) :
  PySort.in_order (fun x => snd x) true x y <-> descending x y.
Proof.
  unfold PySort.in_order, PySort.precedes, descending. apply float_lt_false_iff.
Qed.

Lemma sorted_articles_descending (scored : list (A * Q)) :
  StronglySorted descending (sorted_articles scored).
Proof.
  unfold sorted_articles.
  pose proof (sorted_in_order (fun x : A * Q => snd x) true scored) as S.
  induction S as [|x l S IH F]; constructor; [exact IH|].
  eapply Forall_impl; [|exact F]. intros y. apply in_order_descending.
Qed.

Lemma with_score_head (x : A * Q) (l : list (A * Q)) :
  with_score (snd x) (x :: l) = x :: with_score (snd x) l.
Proof.
  unfold with_score. simpl.
  assert (E : Qeq_bool (snd x) (snd x) = true) by (apply Qeq_bool_iff; reflexivity).
  rewrite E. reflexivity.
Qed.

Lemma with_score_In (s : Q) (x : A * Q) (l : list (A * Q)) :
  In x (with_score s l) -> In x l.
Proof. unfold with_score. intro H. apply filter_In in H. tauto. Qed.

Lemma with_score_Qeq (s s' : Q) (l : list (A * Q)) :
  (s == s')%Q -> with_score s l = with_score s' l.
Proof.
  intro E. unfold with_score. apply filter_ext. intro x.
  destruct (Qeq_bool (snd x) s) eqn:E1; destruct (Qeq_bool (snd x) s') eqn:E2;
    try reflexivity.
  - apply Qeq_bool_iff in E1. rewrite E in E1. apply Qeq_bool_iff in E1. congruence.
  - apply Qeq_bool_iff in E2. rewrite <- E in E2. apply Qeq_bool_iff in E2. congruence.
Qed.

Lemma descending_head_max (x y : A * Q) (l : list (A * Q)) :
  StronglySorted descending (x :: l) -> In y (x :: l) -> (snd y <= snd x)%Q.
Proof.
  intros S I. inversion S as [|? ? _ F]; subst. destruct I as [<-|I].
  - apply Qle_refl.
  - rewrite Forall_forall in F. apply (F y I).
Qed.

(** A descending list is determined by the order it gives the pairs of
    each score: two stable descending arrangements of the same pairs are the
    same list, whatever the sorting algorithm. *)
Lemma stable_descending_unique (l1 l2 : list (A * Q)) :
  StronglySorted descending l1 -> StronglySorted descending l2 ->
  (forall s, with_score s l1 = with_score s l2) -> l1 = l2.
Proof.
  revert l2. induction l1 as [|x t1 IH]; intros [|y t2] S1 S2 E.
  - reflexivity.
  - specialize (E (snd y)). rewrite with_score_head in E. discriminate.
  - specialize (E (snd x)). rewrite with_score_head in E. discriminate.
  - assert (Ix : In x (y :: t2)).
    { apply with_score_In with (s := snd x). rewrite <- E, with_score_head. left. reflexivity. }
    assert (Iy : In y (x :: t1)).
    { apply with_score_In with (s := snd y). rewrite E, with_score_head. left. reflexivity. }
    assert (Q : (snd x == snd y)%Q).
    { apply Qle_antisym; eapply descending_head_max; eassumption. }
    assert (X : x = y).
    { pose proof (E (snd x)) as Ex. rewrite with_score_head in Ex.
      rewrite (with_score_Qeq _ _ (y :: t2) Q), with_score_head in Ex. congruence. }
    subst y. f_equal. apply IH.
    + inversion S1; assumption.
    + inversion S2; assumption.
    + intro s. specialize (E s). unfold with_score in *. simpl in E.
      destruct (Qeq_bool (snd x) s); congruence.
Qed.

(** C1. For every list of (article, score) pairs, the re-ranking returns the
    same pairs, sorted in descending order of score, and the sort is stable:
    the pairs of any one score stand in the order they had in the input.
    For the scores [0.2, 0.9, 0.5] the output order is the input indices
    [1, 2, 0]. *)
Theorem sorted_articles_descending_stable (scored : list (A * Q)) :
  Permutation scored (sorted_articles scored)
  /\ StronglySorted descending (sorted_articles scored)
  /\ (forall s : Q, with_score s (sorted_articles scored) = with_score s scored)
  /\ (forall a0 a1 a2 : A,
        sorted_articles [(a0, 2 # 10); (a1, 9 # 10); (a2, 5 # 10)]%Q
        = [(a1, 9 # 10); (a2, 5 # 10); (a0, 2 # 10)]%Q).
Proof.
  repeat split.
  - apply sorted_perm.
  - apply sorted_articles_descending.
  - intro s. apply filter_sorted.
Qed.
End Ranking.

(** Ranking the indices themselves. *)
Example sorted_articles_indices :
  map fst (Notebook.sorted_articles
             (Notebook.scored_articles [0; 1; 2] [2 # 10; 9 # 10; 5 # 10]%Q))
  = [1; 2; 0].
Proof. reflexivity. Qed.

(** Equal scores keep their input order. *)
Example sorted_articles_ties :
  map fst (Notebook.sorted_articles
             (Notebook.scored_articles [0; 1; 2; 3] [5 # 10; 9 # 10; 1 # 2; 9 # 10]%Q))
  = [1; 3; 0; 2].
Proof. reflexivity. Qed.

(** ** Query expansion *)

Section Expansion.
Import Py Notebook.
Variable env : capabilities.
Variable USER_QUESTION : string.

(** Whenever the expansion returns, the list it returns is the list the
    model generated followed by the question. *)
Lemma queries_inversion (qs : list value) :
  queries env USER_QUESTION = inr qs ->
  exists parsed generated,
    json_gpt env (QUERIES_INPUT USER_QUESTION) = inr parsed
    /\ subscript parsed "queries" = inr (VList generated)
    /\ qs = generated ++ [VStr USER_QUESTION].
Proof.
  unfold queries. intro H.
  apply bind_inr in H. destruct H as (parsed & P & H).
  apply bind_inr in H. destruct H as (generated & G & H).
  destruct generated as [| | | |l|]; simpl in H; try discriminate.
  inversion H; subst. exists parsed, l. auto.
Qed.

(** C4. For every model output that parses to an object whose ["queries"]
    entry is a list, the query list is that generated list with the user
    question appended as its final element; and whenever the expansion
    returns a query list at all, the list ends with the user question, which
    is therefore always included and always last. *)
Theorem queries_end_with_user_question :
  (forall parsed generated,
      json_gpt env (QUERIES_INPUT USER_QUESTION) = inr parsed ->
      subscript parsed "queries" = inr (VList generated) ->
      queries env USER_QUESTION = inr (generated ++ [VStr USER_QUESTION]))
  /\ (forall qs,
        queries env USER_QUESTION = inr qs ->
        last qs VNone = VStr USER_QUESTION
        /\ In (VStr USER_QUESTION) qs
        /\ exists generated, qs = generated ++ [VStr USER_QUESTION]).
Proof.
  split.
  - intros parsed generated P G. unfold queries. rewrite P. simpl. rewrite G.
    reflexivity.
  - intros qs H. destruct (queries_inversion qs H) as (parsed & generated & _ & _ & ->).
    repeat split.
    + apply last_last.
    + apply in_or_app. right. left. reflexivity.
    + exists generated. reflexivity.
Qed.
End Expansion.

(** The expansion in the sample world. *)
Example queries_sample :
  Notebook.queries Fixture.env Notebook.NBA_QUESTION
  = inr [Py.VStr "NBA finals"; Py.VStr "Finals MVP"; Py.VStr Notebook.NBA_QUESTION].
Proof. reflexivity. Qed.

Lemma queries_end_with_user_question_witness :
  Notebook.json_gpt Fixture.env (Notebook.QUERIES_INPUT Notebook.NBA_QUESTION)
  = inr Fixture.model_output
  /\ Py.subscript Fixture.model_output "queries"
     = inr (Py.VList [Py.VStr "NBA finals"; Py.VStr "Finals MVP"])
  /\ Notebook.queries Fixture.env Notebook.NBA_QUESTION
     = inr ([Py.VStr "NBA finals"; Py.VStr "Finals MVP"] ++ [Py.VStr Notebook.NBA_QUESTION]).
Proof.
  split; [reflexivity|]. split; [reflexivity|].
  apply (proj1 (queries_end_with_user_question Fixture.env Notebook.NBA_QUESTION)
           Fixture.model_output [Py.VStr "NBA finals"; Py.VStr "Finals MVP"]);
    reflexivity.
Defined.

(** ** The search loop *)

Section Search.
Import Py Notebook.
Variable env : capabilities.

Lemma search_step_succeeds (query : value) (found : list value) (st : search_state) :
  search_succeeds env query found ->
  search_step env query st
  = ({| st_articles := st_articles st ++ found;
        st_requests := st_requests st ++ [search_params env query] |}, None).
Proof.
  intros (response & R & S & F). unfold search_step, search_news.
  rewrite R. simpl. rewrite S. simpl. rewrite F. reflexivity.
Qed.

Lemma search_step_fails (query response message : value) (st : search_state) :
  search_fails env query response message ->
  search_step env query st
  = ({| st_articles := st_articles st;
        st_requests := st_requests st ++ [search_params env query] |},
     Some (Exception message)).
Proof.
  intros (R & (status & S & N) & M). unfold search_step, search_news.
  rewrite R. simpl. rewrite S. simpl. rewrite N, M. reflexivity.
Qed.

(** A run of successful searches appends the article lists in query order
    and sends one request per query, in query order. *)
Lemma search_loop_succeeds (queries rest : list value) (found : list (list value))
    (st : search_state) :
  Forall2 (search_succeeds env) queries found ->
  search_loop env (queries ++ rest) st
  = search_loop env rest
      {| st_articles := st_articles st ++ List.concat found;
         st_requests := st_requests st ++ map (search_params env) queries |}.
Proof.
  intro H. revert st. induction H as [|query l queries found' Hq _ IH]; intro st.
  - simpl. rewrite !app_nil_r. destruct st; reflexivity.
  - simpl. rewrite (search_step_succeeds query l st Hq), IH. simpl.
    rewrite <- !app_assoc. reflexivity.
Qed.

(** C6. When every query's search succeeds, the articles accumulated by the
    loop, before the de-duplication, are the per-query article lists
    concatenated in query order, and the requests were sent one per query,
    one after the other in query order. *)
Theorem search_loop_concatenates (queries : list value) (found : list (list value)) :
  Forall2 (search_succeeds env) queries found ->
  search_loop env queries {| st_articles := []; st_requests := [] |}
  = ({| st_articles := List.concat found;
        st_requests := map (search_params env) queries |}, None).
Proof.
  intro H. rewrite <- (app_nil_r queries) at 1.
  rewrite (search_loop_succeeds queries [] found _ H). reflexivity.
Qed.

(** C3. When the searches before [query] succeed and the search for [query]
    is answered with a status other than ["ok"], the cell raises
    [Exception] with the message field of that response and stops there: the
    accumulated articles are those of the earlier queries only, nothing of
    the failing response is added, no later query is sent and the
    de-duplication is not reached. *)
Theorem search_failure_raises_message (before after : list value)
    (found : list (list value)) (query response message : value) :
  Forall2 (search_succeeds env) before found ->
  search_fails env query response message ->
  search_cell env (before ++ query :: after)
  = ({| st_articles := List.concat found;
        st_requests := map (search_params env) (before ++ [query]) |},
     Some (Exception message)).
Proof.
  intros H F. unfold search_cell.
  rewrite (search_loop_succeeds before (query :: after) found _ H). simpl.
  rewrite (search_step_fails query response message _ F). simpl.
  rewrite map_app. reflexivity.
Qed.
End Search.

(** The searches of the sample world: the two generated queries and the
    question succeed, an unknown query is answered with an error. *)
Lemma sample_searches_succeed :
  Forall2 (Notebook.search_succeeds Fixture.env)
    [Py.VStr "NBA finals"; Py.VStr "Finals MVP"; Py.VStr Notebook.NBA_QUESTION]
    [[Fixture.nuggets; Fixture.jokic]; [Fixture.nuggets_updated; Fixture.parade]; []].
Proof.
  repeat constructor; eexists; repeat split; reflexivity.
Qed.

Lemma sample_search_fails :
  Notebook.search_fails Fixture.env (Py.VStr "NBA trades") Fixture.error_response
    (Py.VStr "You have made too many requests recently.").
Proof.
  repeat split. exists (Py.VStr "error"). split; reflexivity.
Qed.

Lemma search_loop_concatenates_witness :
  Forall2 (Notebook.search_succeeds Fixture.env)
    [Py.VStr "NBA finals"; Py.VStr "Finals MVP"; Py.VStr Notebook.NBA_QUESTION]
    [[Fixture.nuggets; Fixture.jokic]; [Fixture.nuggets_updated; Fixture.parade]; []]
  /\ Notebook.search_loop Fixture.env
       [Py.VStr "NBA finals"; Py.VStr "Finals MVP"; Py.VStr Notebook.NBA_QUESTION]
       {| Notebook.st_articles := []; Notebook.st_requests := [] |}
     = ({| Notebook.st_articles :=
             List.concat [[Fixture.nuggets; Fixture.jokic];
                          [Fixture.nuggets_updated; Fixture.parade]; []];
           Notebook.st_requests :=
             map (Notebook.search_params Fixture.env)
                 [Py.VStr "NBA finals"; Py.VStr "Finals MVP";
                  Py.VStr Notebook.NBA_QUESTION] |}, None).
Proof.
  split; [exact sample_searches_succeed|].
  apply (search_loop_concatenates Fixture.env _ _ sample_searches_succeed).
Defined.

Lemma search_failure_raises_message_witness :
  Forall2 (Notebook.search_succeeds Fixture.env)
    [Py.VStr "NBA finals"] [[Fixture.nuggets; Fixture.jokic]]
  /\ Notebook.search_fails Fixture.env (Py.VStr "NBA trades") Fixture.error_response
       (Py.VStr "You have made too many requests recently.")
  /\ Notebook.search_cell Fixture.env
       ([Py.VStr "NBA finals"] ++ Py.VStr "NBA trades" :: [Py.VStr "Finals MVP"])
     = ({| Notebook.st_articles := List.concat [[Fixture.nuggets; Fixture.jokic]];
           Notebook.st_requests :=
             map (Notebook.search_params Fixture.env)
                 ([Py.VStr "NBA finals"] ++ [Py.VStr "NBA trades"]) |},
        Some (Py.Exception (Py.VStr "You have made too many requests recently."))).
Proof.
  assert (H : Forall2 (Notebook.search_succeeds Fixture.env)
                [Py.VStr "NBA finals"] [[Fixture.nuggets; Fixture.jokic]]).
  { repeat constructor; eexists; repeat split; reflexivity. }
  split; [exact H|]. split; [exact sample_search_fails|].
  apply (search_failure_raises_message Fixture.env _ _ _ _ _ _ H sample_search_fails).
Defined.

(** The whole search cell in the sample world. *)
Example search_cell_sample :
  Notebook.search_cell Fixture.env
    [Py.VStr "NBA finals"; Py.VStr "Finals MVP"; Py.VStr Notebook.NBA_QUESTION]
  = ({| Notebook.st_articles := [Fixture.nuggets_updated; Fixture.jokic; Fixture.parade];
        Notebook.st_requests :=
          map (Notebook.search_params Fixture.env)
              [Py.VStr "NBA finals"; Py.VStr "Finals MVP";
               Py.VStr Notebook.NBA_QUESTION] |}, None).
Proof. reflexivity. Qed.

(** ** Embeddings *)

Section Embeddings.
Import Py Notebook.
Variable env : capabilities.

(** Cutting a text after [n] characters: the cut has [n] characters, or
    all of them when the text is shorter; it is a prefix of the text; and
    what it leaves starts a character, so no character is cut in two. *)
Lemma char_count_take_chars (n : nat) (s : string) :
  char_count (take_chars n s) = Nat.min n (char_count s).
Proof.
  revert n. induction s as [|c s IH]; intro n; simpl.
  - rewrite Nat.min_0_r. reflexivity.
  - destruct (is_continuation c) eqn:E; simpl.
    + rewrite E. apply IH.
    + destruct n as [|n]; simpl; [reflexivity|]. rewrite E, IH. reflexivity.
Qed.

Lemma take_drop_chars (n : nat) (s : string) :
  (take_chars n s ++ drop_chars n s)%string = s.
Proof.
  revert n. induction s as [|c s IH]; intro n; simpl; [reflexivity|].
  destruct (is_continuation c).
  - simpl. f_equal. apply IH.
  - destruct n as [|n]; simpl; [reflexivity|]. f_equal. apply IH.
Qed.

Lemma drop_chars_boundary (n : nat) (s : string) :
  match drop_chars n s with
  | EmptyString => True
  | String c _ => is_continuation c = false
  end.
Proof.
  revert n. induction s as [|c s IH]; intro n; simpl; [exact I|].
  destruct (is_continuation c) eqn:E; [apply IH|].
  destruct n as [|n]; [exact E | apply IH].
Qed.

(** On ASCII text a character is a byte, and the cut is [substring]. *)
Lemma take_chars_ascii (n : nat) (s : string) :
  all_ascii s = true -> take_chars n s = substring 0 n s.
Proof.
  revert n. induction s as [|c s IH]; intros n H.
  - destruct n; reflexivity.
  - destruct c as [b0 b1 b2 b3 b4 b5 b6 b7]. simpl in H.
    apply andb_true_iff in H. destruct H as [B H].
    apply negb_true_iff in B. subst b7. simpl.
    destruct n as [|n]; [reflexivity|]. f_equal. apply IH. exact H.
Qed.

Lemma article_text_spaced (article : value) (fields : string * string * string) :
  has_text_fields article fields ->
  article_text env article = inr (spaced_text fields).
Proof.
  destruct fields as [[title description] content]. intros (T & D & C).
  unfold article_text. rewrite T. simpl. rewrite D. simpl. rewrite C. reflexivity.
Qed.

Lemma Embedding_create_texts (model : string) (texts : list string) :
  Embedding_create env model (VList (map VStr texts))
  = inr (map (embedding_model env model) texts).
Proof.
  simpl. replace (mapM as_text (map VStr texts)) with (@inr exn _ texts);
    [reflexivity|].
  apply eq_sym. apply mapM_Forall2.
  induction texts; simpl; constructor; [reflexivity | assumption].
Qed.

(** C5 as the code has it.  For every list of articles whose title,
    description and content are strings, the text embedded for an article is
    its title, a space, its description, a space, and the first 100
    characters of its content (100 is written in the code, nothing sets it;
    characters are code points, so the cut has 100 of them, or all when the
    content is shorter, and is a prefix of the content);
    the embeddings returned are those of these texts, one per article and in
    article order; the hypothetical answer gets one embedding, that of its
    text. *)
Theorem article_embeddings_one_per_article (articles : list value)
    (fields : list (string * string * string)) (answer : string) :
  Forall2 has_text_fields articles fields ->
  article_embeddings env articles
  = inr (map (fun f => embedding_model env "text-embedding-ada-002" (spaced_text f)) fields)
  /\ List.length (map (fun f => embedding_model env "text-embedding-ada-002" (spaced_text f)) fields)
     = List.length articles
  /\ Forall (fun f =>
               let '(title, description, content) := f in
               spaced_text f
               = (title ++ " " ++ description ++ " " ++ take_chars 100 content)%string
               /\ char_count (take_chars 100 content)
                  = Nat.min 100 (char_count content)
               /\ (take_chars 100 content ++ drop_chars 100 content)%string
                  = content)
            fields
  /\ hypothetical_answer_embedding env (VStr answer)
     = inr (embedding_model env "text-embedding-ada-002" answer).
Proof.
  intro H. repeat split.
  - unfold article_embeddings.
    replace (mapM (article_text env) articles)
      with (@inr exn _ (map spaced_text fields)).
    + simpl bind. unfold embeddings. rewrite Embedding_create_texts. simpl.
      rewrite map_id, map_map. reflexivity.
    + apply eq_sym. apply mapM_Forall2.
      induction H as [|a f l l' Haf _ IH]; simpl; constructor; [|exact IH].
      apply article_text_spaced. exact Haf.
  - rewrite length_map. apply eq_sym. eapply Forall2_length. exact H.
  - apply Forall_forall. intros [[title description] content] _.
    repeat split.
    + apply char_count_take_chars.
    + apply take_drop_chars.
Qed.
End Embeddings.

(** The text of the sample article with the long content: the content is
    cut after its 100th character, which is its 111th byte. *)
Example article_text_long_content :
  Notebook.article_text Fixture.env Fixture.game_five
  = inr "Jokić leads Denver Game 5 report Nikola Jokić scored 28 points as Denver — the “Mile High City” — beat Miami 94–89 in Game 5 to win i"
  /\ Py.char_count Fixture.long_content = 130
  /\ String.length Fixture.long_content = 141
  /\ Py.char_count (Py.take_chars 100 Fixture.long_content) = 100
  /\ String.length (Py.take_chars 100 Fixture.long_content) = 111.
Proof. repeat split. Qed.

Lemma article_embeddings_one_per_article_witness :
  Forall2 Notebook.has_text_fields
    [Fixture.game_five; Fixture.nuggets]
    [("Jokić leads Denver", "Game 5 report", Fixture.long_content);
     ("Nuggets win", "Denver beat Miami 94-89", "Denver won its first title.")]
  /\ Notebook.article_embeddings Fixture.env [Fixture.game_five; Fixture.nuggets]
     = inr (map (fun f => Notebook.embedding_model Fixture.env "text-embedding-ada-002"
                            (Notebook.spaced_text f))
              [("Jokić leads Denver", "Game 5 report", Fixture.long_content);
               ("Nuggets win", "Denver beat Miami 94-89", "Denver won its first title.")])
  /\ map Notebook.spaced_text
       [("Jokić leads Denver", "Game 5 report", Fixture.long_content);
        ("Nuggets win", "Denver beat Miami 94-89", "Denver won its first title.")]
     = ["Jokić leads Denver Game 5 report Nikola Jokić scored 28 points as Denver — the “Mile High City” — beat Miami 94–89 in Game 5 to win i";
        "Nuggets win Denver beat Miami 94-89 Denver won its first title."].
Proof.
  assert (H : Forall2 Notebook.has_text_fields
                [Fixture.game_five; Fixture.nuggets]
                [("Jokić leads Denver", "Game 5 report", Fixture.long_content);
                 ("Nuggets win", "Denver beat Miami 94-89", "Denver won its first title.")]).
  { repeat constructor. }
  split; [exact H|]. split; [|reflexivity].
  apply (article_embeddings_one_per_article Fixture.env _ _ "TEAM NAME won." H).
Defined.

(** C5 as the specification words it fails: the text embedded for an
    article is not the plain concatenation of its title, its description and
    the first 100 characters of its content; the code puts a space between
    the parts. *)
Lemma article_text_not_plain_concatenation :
  Notebook.has_text_fields Fixture.nuggets
    ("Nuggets win", "Denver beat Miami 94-89", "Denver won its first title.")
  /\ Notebook.concatenated_text
       ("Nuggets win", "Denver beat Miami 94-89", "Denver won its first title.")
     = "Nuggets winDenver beat Miami 94-89Denver won its first title."
  /\ Notebook.article_text Fixture.env Fixture.nuggets
     = inr "Nuggets win Denver beat Miami 94-89 Denver won its first title."
  /\ Notebook.article_text Fixture.env Fixture.nuggets
     <> inr (Notebook.concatenated_text
               ("Nuggets win", "Denver beat Miami 94-89", "Denver won its first title.")).
Proof.
  split; [repeat split|]. split; [reflexivity|]. split; [reflexivity|].
  discriminate.
Qed.

(** ** Answer synthesis *)

Section Answer.
Import Py Notebook.
Variable env : capabilities.
Variable USER_QUESTION : string.

Lemma format_result_projected (article : value) (fields : value * value * value) :
  has_result_fields article fields -> format_result article = inr (projected fields).
Proof.
  destruct fields as [[title description] url]. intros (T & D & U).
  unfold format_result. rewrite T. simpl. rewrite D. simpl. rewrite U. reflexivity.
Qed.

(** C7. The answer cell takes the first five ranked pairs (all of them when
    there are fewer), turns each article into a record with exactly the
    fields title, description and url, holding the article's values, with no
    content field and no score, and sends one streamed chat request whose
    only message carries these records and the user question. *)
Theorem formatted_top_results_projection (sorted : list (value * Q))
    (fields : list (value * value * value)) :
  Forall2 (fun x f => has_result_fields (fst x) f) (firstn 5 sorted) fields ->
  formatted_top_results sorted = inr (map projected fields)
  /\ List.length (map projected fields) = Nat.min 5 (List.length sorted)
  /\ Forall (fun top =>
               exists d, top = VDict d
                         /\ PyDict.keys d = ["title"; "description"; "url"]
                         /\ subscript top "content" = inl (KeyError "content"))
            (map projected fields)
  /\ (forall completion,
        chat_completion_stream env (answer_request env USER_QUESTION (map projected fields))
        = inr completion ->
        answer_cell env USER_QUESTION sorted
        = inr (answer_request env USER_QUESTION (map projected fields),
               stream_answer completion))
  /\ answer_request env USER_QUESTION (map projected fields)
     = {| model := "gpt-3.5-turbo";
          messages :=
            [("user",
              (nl
               ++ "Generate an answer to the user's question based on the given search results. " ++ nl
               ++ "TOP_RESULTS: " ++ repr env (VList (map projected fields)) ++ nl
               ++ "USER_QUESTION: " ++ USER_QUESTION ++ nl
               ++ nl
               ++ "Include as much information as possible in the answer. Reference the relevant search result urls as markdown links." ++ nl)%string)];
          temperature := 1 # 2;
          stream := true |}.
Proof.
  intro H.
  assert (F : formatted_top_results sorted = inr (map projected fields)).
  { unfold formatted_top_results. apply mapM_Forall2.
    induction H as [|[article score] f l l' Haf _ IH]; simpl; constructor; [|exact IH].
    apply format_result_projected. exact Haf. }
  split; [exact F|]. split; [|split; [|split]].
  - rewrite length_map, <- (Forall2_length H), length_firstn. reflexivity.
  - apply Forall_forall. intros top I. apply in_map_iff in I.
    destruct I as ([[title description] url] & <- & _).
    eexists. repeat split.
  - intros completion C. unfold answer_cell. rewrite F. simpl. rewrite C. reflexivity.
  - reflexivity.
Qed.
End Answer.

Lemma formatted_top_results_projection_witness :
  Forall2 (fun x f => Notebook.has_result_fields (fst x) f)
    (firstn 5 [(Fixture.nuggets_updated, 9 # 10); (Fixture.jokic, 1 # 2)]%Q)
    [(Py.VStr "Nuggets win first title", Py.VStr "Denver beat Miami 94-89",
      Py.VStr "https://example.com/nuggets");
     (Py.VStr "Jokic named MVP", Py.VStr "Finals MVP",
      Py.VStr "https://example.com/jokic")]
  /\ Notebook.formatted_top_results
       [(Fixture.nuggets_updated, 9 # 10); (Fixture.jokic, 1 # 2)]%Q
     = inr (map Notebook.projected
              [(Py.VStr "Nuggets win first title", Py.VStr "Denver beat Miami 94-89",
                Py.VStr "https://example.com/nuggets");
               (Py.VStr "Jokic named MVP", Py.VStr "Finals MVP",
                Py.VStr "https://example.com/jokic")]).
Proof.
  assert (H : Forall2 (fun x f => Notebook.has_result_fields (fst x) f)
    (firstn 5 [(Fixture.nuggets_updated, 9 # 10); (Fixture.jokic, 1 # 2)]%Q)
    [(Py.VStr "Nuggets win first title", Py.VStr "Denver beat Miami 94-89",
      Py.VStr "https://example.com/nuggets");
     (Py.VStr "Jokic named MVP", Py.VStr "Finals MVP",
      Py.VStr "https://example.com/jokic")]).
  { repeat constructor. }
  split; [exact H|].
  apply (formatted_top_results_projection Fixture.env Notebook.NBA_QUESTION _ _ H).
Defined.

(** Only the first five of seven ranked articles are kept. *)
Example formatted_top_results_five :
  option_map (@List.length _)
    (match Notebook.formatted_top_results
             (map (fun s => (Fixture.parade, s)) [7; 6; 5; 4; 3; 2; 1]%Q) with
     | inr tops => Some tops
     | inl _ => None
     end)
  = Some 5.
Proof. reflexivity. Qed.

(** ** Streaming *)

Section Streaming.
Import Py Notebook.

Lemma stream_step_text (c : chunk) (s : string) (st : stream_state) :
  fragment c = VStr s ->
  stream_step c st
  = ({| text := (text st ++ s)%string;
        area := {| shown := [(text st ++ s)%string]; clear_pending := false |} |}, None).
Proof.
  intro E. unfold stream_step. rewrite E. reflexivity.
Qed.

Lemma append_nil_r (s : string) : (s ++ "")%string = s.
Proof. induction s as [|c s IH]; simpl; [reflexivity | f_equal; exact IH]. Qed.

Lemma append_assoc (a b c : string) : ((a ++ b) ++ c)%string = (a ++ b ++ c)%string.
Proof. induction a as [|x a IH]; simpl; [reflexivity | f_equal; exact IH]. Qed.

Lemma joined_cons (s : string) (fragments : list string) :
  joined (s :: fragments) = (s ++ joined fragments)%string.
Proof.
  unfold joined. destruct fragments; simpl; [rewrite append_nil_r|]; reflexivity.
Qed.

(** The loop on a non-empty run of text fragments, from any state: the
    text grows by the fragments, and the output area shows the new text
    alone. *)
Lemma stream_loop_text (completion : list chunk) (fragments : list string)
    (st : stream_state) :
  map fragment completion = map VStr fragments ->
  completion <> [] ->
  stream_loop completion st
  = ({| text := (text st ++ joined fragments)%string;
        area := {| shown := [(text st ++ joined fragments)%string];
                   clear_pending := false |} |}, None).
Proof.
  revert fragments st. induction completion as [|c rest IH]; intros fragments st E N.
  - contradiction.
  - destruct fragments as [|s fragments]; [discriminate|].
    simpl in E. inversion E as [[Ec Er]]. simpl.
    rewrite (stream_step_text c s st Ec).
    destruct rest as [|c' rest'].
    + destruct fragments; [|discriminate]. simpl.
      unfold joined. simpl. reflexivity.
    + rewrite (IH fragments _ Er); [|discriminate]. simpl.
      rewrite joined_cons, append_assoc. reflexivity.
Qed.

(** C8. While the answer streams, after each fragment the output area
    shows exactly one text, the accumulation of all fragments received so
    far (the earlier rendering is replaced, nothing is appended to the area);
    when the stream ends, the accumulated text is the concatenation of the
    contents of all fragments in arrival order. *)
Theorem stream_answer_overwrites (completion : list chunk) (fragments : list string) :
  map fragment completion = map VStr fragments ->
  (forall n, 0 < n <= List.length completion ->
     stream_answer (firstn n completion)
     = ({| text := joined (firstn n fragments);
           area := {| shown := [joined (firstn n fragments)];
                      clear_pending := false |} |}, None))
  /\ fst (stream_answer completion)
     = {| text := joined fragments;
          area := {| shown := match completion with
                              | [] => []
                              | _ => [joined fragments]
                              end;
                     clear_pending := false |} |}
  /\ snd (stream_answer completion) = None.
Proof.
  intro E.
  assert (P : forall n, 0 < n <= List.length completion ->
     stream_answer (firstn n completion)
     = ({| text := joined (firstn n fragments);
           area := {| shown := [joined (firstn n fragments)];
                      clear_pending := false |} |}, None)).
  { intros n [Hn Hl]. unfold stream_answer.
    rewrite (stream_loop_text (firstn n completion) (firstn n fragments)).
    - reflexivity.
    - rewrite <- !firstn_map. rewrite E. reflexivity.
    - destruct completion; [simpl in Hl; lia|]. destruct n; [lia|]. discriminate. }
  split; [exact P|].
  destruct completion as [|c rest].
  - destruct fragments; [|discriminate]. split; reflexivity.
  - specialize (P (List.length (c :: rest))).
    rewrite firstn_all in P.
    assert (L : List.length (c :: rest) = List.length fragments).
    { rewrite <- (length_map fragment), E, length_map. reflexivity. }
    rewrite L, firstn_all in P. rewrite P; [split; reflexivity|].
    rewrite <- L. simpl. lia.
Qed.
End Streaming.

Lemma stream_answer_overwrites_witness :
  map Notebook.fragment Fixture.completion = map Py.VStr [""; "Denver"; " won."; ""]
  /\ fst (Notebook.stream_answer Fixture.completion)
     = {| Notebook.text := "Denver won.";
          Notebook.area := {| Notebook.shown := ["Denver won."];
                              Notebook.clear_pending := false |} |}.
Proof.
  split; [reflexivity|].
  apply (proj1 (proj2 (stream_answer_overwrites Fixture.completion
                         [""; "Denver"; " won."; ""] eq_refl))).
Defined.

(** The output area after each of the sample fragments. *)
Example stream_answer_steps :
  map (fun n => Notebook.shown (Notebook.area
                  (fst (Notebook.stream_answer (firstn n Fixture.completion)))))
      [0; 1; 2; 3; 4]
  = [[]; [""]; ["Denver"]; ["Denver won."]; ["Denver won."]].
Proof. reflexivity. Qed.

(** ** The whole notebook in the sample world *)

(** Ranking the three de-duplicated sample articles against the
    hypothetical answer: the scores are the dot products worked out by hand
    (the answer has 39 characters and the three texts have 75, 54 and 61,
    so the scores are [39 * 75 + 1], [39 * 54 + 1] and [39 * 61 + 1]) and the
    order follows them. *)
Example rerank_sample :
  Notebook.rerank Fixture.env [Fixture.nuggets_updated; Fixture.jokic; Fixture.parade]
    (Py.VStr "TEAM NAME won. The MVP was PLAYER NAME.")
  = inr [(Fixture.nuggets_updated, 2926 # 1); (Fixture.parade, 2380 # 1);
         (Fixture.jokic, 2107 # 1)]%Q.
Proof. reflexivity. Qed.

(** The run ends with the streamed text on display and no exception. *)
Example notebook_sample :
  match Notebook.notebook Fixture.env Notebook.NBA_QUESTION with
  | inr (_, (st, raised)) =>
      Some (Notebook.text st, Notebook.shown (Notebook.area st), raised)
  | inl _ => None
  end
  = Some ("Denver won.", ["Denver won."], None).
Proof. reflexivity. Qed.

(* ================================================================== *)
(** * Part III: further properties of the cells *)
(* ================================================================== *)

(** ** The search loop, whatever the endpoint answers *)

Section SearchInvariants.
Import Py Notebook.
Variable env : capabilities.



End SearchInvariants.

Section SearchMalformed.
Import Py Notebook.
Variable env : capabilities.

(** X2. When the searches before [query] succeed and the search for
    [query] is answered with an object whose status is not ["ok"] and which
    has no ["message"] entry, the cell raises [KeyError] for ["message"]
    instead of an [Exception] with the endpoint's message; the articles of
    the earlier queries stay accumulated and no later query is sent. *)
Theorem search_error_without_message (before after : list value)
    (found : list (list value)) (query status : value)
    (response : list (string * value)) :
  Forall2 (search_succeeds env) before found ->
  requests_get_json env "https://newsapi.org/v2/everything" (search_params env query)
  = inr (VDict response) ->
  PyDict.getitem string_dec "status" response = Some status ->
  eq_str status "ok" = false ->
  PyDict.getitem string_dec "message" response = None ->
  search_cell env (before ++ query :: after)
  = ({| st_articles := List.concat found;
        st_requests := map (search_params env) (before ++ [query]) |},
     Some (KeyError "message")).
Proof.
  intros H R S N M. unfold search_cell.
  rewrite (search_loop_succeeds env before (query :: after) found _ H). simpl.
  unfold search_step, search_news. rewrite R. simpl. rewrite S. simpl.
  rewrite N, M. simpl. rewrite map_app. reflexivity.
Qed.

(** X3. When the searches before [query] succeed and the search for
    [query] is answered with status ["ok"] but without an ["articles"]
    entry, or with one that is not a list, the cell raises ([KeyError] for
    ["articles"], or [TypeError]) and keeps the articles of the earlier
    queries. *)
Theorem search_ok_without_articles (before after : list value)
    (found : list (list value)) (query : value) (response : list (string * value)) :
  Forall2 (search_succeeds env) before found ->
  requests_get_json env "https://newsapi.org/v2/everything" (search_params env query)
  = inr (VDict response) ->
  PyDict.getitem string_dec "status" response = Some (VStr "ok") ->
  (PyDict.getitem string_dec "articles" response = None ->
   search_cell env (before ++ query :: after)
   = ({| st_articles := List.concat found;
         st_requests := map (search_params env) (before ++ [query]) |},
      Some (KeyError "articles")))
  /\ (forall v, PyDict.getitem string_dec "articles" response = Some v ->
        (forall l, v <> VList l) ->
        search_cell env (before ++ query :: after)
        = ({| st_articles := List.concat found;
              st_requests := map (search_params env) (before ++ [query]) |},
           Some TypeError)).
Proof.
  intros H R S. split.
  - intro A. unfold search_cell.
    rewrite (search_loop_succeeds env before (query :: after) found _ H). simpl.
    unfold search_step, search_news. rewrite R. simpl. rewrite S. simpl.
    rewrite A. simpl. rewrite map_app. reflexivity.
  - intros v A NL. unfold search_cell.
    rewrite (search_loop_succeeds env before (query :: after) found _ H). simpl.
    unfold search_step, search_news. rewrite R. simpl. rewrite S. simpl.
    rewrite A. simpl. rewrite map_app.
    destruct v as [| | | |l|]; try reflexivity. exfalso. apply (NL l). reflexivity.
Qed.
End SearchMalformed.

Lemma search_error_without_message_witness :
  Forall2 (Notebook.search_succeeds (Faults.with_endpoint (fun _ => inr Faults.silent_error)))
    [] []
  /\ Notebook.search_cell (Faults.with_endpoint (fun _ => inr Faults.silent_error))
       ([] ++ Py.VStr "NBA finals" :: [Py.VStr "Finals MVP"])
     = ({| Notebook.st_articles := List.concat [];
           Notebook.st_requests :=
             map (Notebook.search_params
                    (Faults.with_endpoint (fun _ => inr Faults.silent_error)))
                 ([] ++ [Py.VStr "NBA finals"]) |},
        Some (Py.KeyError "message")).
Proof.
  split; [constructor|].
  apply (search_error_without_message
           (Faults.with_endpoint (fun _ => inr Faults.silent_error))
           [] [Py.VStr "Finals MVP"] [] (Py.VStr "NBA finals") (Py.VStr "error")
           [("status", Py.VStr "error")]); try reflexivity. constructor.
Defined.

Lemma search_ok_without_articles_witness :
  Notebook.search_cell
    (Faults.with_endpoint (fun _ => inr (Py.VDict [("status", Py.VStr "ok")])))
    ([] ++ Py.VStr "NBA finals" :: [])
  = ({| Notebook.st_articles := List.concat [];
        Notebook.st_requests :=
          map (Notebook.search_params
                 (Faults.with_endpoint (fun _ => inr (Py.VDict [("status", Py.VStr "ok")]))))
              ([] ++ [Py.VStr "NBA finals"]) |},
     Some (Py.KeyError "articles")).
Proof.
  apply (proj1 (search_ok_without_articles
           (Faults.with_endpoint (fun _ => inr (Py.VDict [("status", Py.VStr "ok")])))
           [] [] [] (Py.VStr "NBA finals") [("status", Py.VStr "ok")]
           (Forall2_nil _) eq_refl eq_refl)).
  reflexivity.
Defined.

(** ** De-duplication: further properties *)

Section DeduplicationMore.
Import Py Notebook.

Lemma setitem_fresh {K V : Type} (eq_dec : forall a b : K, {a = b} + {a <> b})
    (k : K) (v : V) (d : list (K * V)) :
  ~ In k (PyDict.keys d) -> PyDict.setitem eq_dec k v d = d ++ [(k, v)].
Proof.
  induction d as [|[k' v'] d IH]; simpl; intro N; [reflexivity|].
  destruct (eq_dec k k') as [E|E].
  - exfalso. apply N. left. congruence.
  - f_equal. apply IH. intro I. apply N. right. exact I.
Qed.

(** Pairs with distinct keys are stored as they come. *)
Lemma from_pairs_distinct {K V : Type} (eq_dec : forall a b : K, {a = b} + {a <> b})
    (pairs : list (K * V)) :
  NoDup (map fst pairs) -> PyDict.from_pairs eq_dec pairs = pairs.
Proof.
  unfold PyDict.from_pairs.
  assert (G : forall d, NoDup (map fst (d ++ pairs)) ->
                fold_left (fun d p => PyDict.setitem eq_dec (fst p) (snd p) d) pairs d
                = d ++ pairs).
  { induction pairs as [|[k v] pairs IH]; intros d N; simpl.
    - rewrite app_nil_r. reflexivity.
    - rewrite setitem_fresh.
      + rewrite IH; rewrite <- app_assoc; [reflexivity | exact N].
      + rewrite map_app in N. apply NoDup_remove_2 in N.
        intro I. apply N. apply in_or_app. left. exact I. }
  intro N. apply (G [] N).
Qed.

Lemma mapM_app {A B : Type} (f : A -> result B) (l1 l2 : list A) :
  mapM f (l1 ++ l2) = (bs1 <- mapM f l1 ;; bs2 <- mapM f l2 ;; ret (bs1 ++ bs2)).
Proof.
  induction l1 as [|a l1 IH]; simpl.
  - destruct (mapM f l2); reflexivity.
  - destruct (f a) as [e|b]; simpl; [reflexivity|].
    rewrite IH. destruct (mapM f l1) as [e|bs1]; simpl; [reflexivity|].
    destruct (mapM f l2); reflexivity.
Qed.

(** When the de-duplication returns, every article had a URL that can be a
    key. *)
Lemma remove_duplicates_urls (articles out : list value) :
  remove_duplicates articles = inr out ->
  exists urls, mapM url_key articles = inr urls.
Proof.
  unfold remove_duplicates. intro H. apply bind_inr in H.
  destruct H as (pairs & P & _). exists (map fst pairs).
  apply mapM_Forall2 in P. apply mapM_Forall2.
  clear - P. induction P as [|a [k a'] l l' Hk _ IH]; simpl; constructor; [|exact IH].
  destruct (url_key a) as [e|k0]; simpl in Hk; [discriminate|].
  inversion Hk. reflexivity.
Qed.

Lemma remove_duplicates_distinct (articles : list value) (urls : list hkey) :
  mapM url_key articles = inr urls ->
  NoDup urls ->
  remove_duplicates articles = inr articles.
Proof.
  intros H N. unfold remove_duplicates. rewrite (url_pairs _ _ H). simpl.
  apply mapM_Forall2 in H. destruct (Forall2_combine _ _ _ H) as (E1 & E2 & _).
  rewrite from_pairs_distinct; [|rewrite E1; exact N].
  unfold PyDict.values. rewrite E2. reflexivity.
Qed.

(** X4. When no URL occurs twice among the accumulated articles, the
    de-duplication returns the list unchanged: same articles, same order
    (the URLs are then their own list of first occurrences). *)
Theorem remove_duplicates_distinct_unchanged (articles : list value)
    (urls : list hkey) :
  mapM url_key articles = inr urls ->
  NoDup urls ->
  remove_duplicates articles = inr articles
  /\ mapM url_key articles = inr (PyDict.first_occurrences hkey_eq_dec urls).
Proof.
  intros H N. split; [apply (remove_duplicates_distinct articles urls H N)|].
  destruct (remove_duplicates_spec articles urls H) as (out & R & O & _).
  rewrite (remove_duplicates_distinct articles urls H N) in R.
  inversion R; subst out. exact O.
Qed.

(** X5. De-duplicating twice changes nothing: the output of the
    de-duplication is returned unchanged by a second de-duplication. *)
Theorem remove_duplicates_idempotent (articles out : list value) :
  remove_duplicates articles = inr out ->
  remove_duplicates out = inr out.
Proof.
  intro H. destruct (remove_duplicates_urls _ _ H) as (urls & U).
  destruct (remove_duplicates_spec articles urls U) as (out' & R & O & _).
  assert (out' = out) by congruence. subst out'.
  apply (remove_duplicates_distinct out _ O).
  apply NoDup_first_occurrences.
Qed.

(** X6. The de-duplication invents nothing: every article it returns is
    one of the accumulated articles, and it returns at most as many articles
    as it was given. *)
Theorem remove_duplicates_selects (articles out : list value) :
  remove_duplicates articles = inr out ->
  incl out articles /\ List.length out <= List.length articles.
Proof.
  intro H. destruct (remove_duplicates_urls _ _ H) as (urls & U).
  destruct (remove_duplicates_spec articles urls U) as (out' & R & O & L).
  assert (out' = out) by congruence. subst out'. split.
  - intros a I. clear - L I.
    induction L as [|k a' ks l Hk _ IH]; [contradiction|].
    destruct I as [<-|I]; [|apply IH; exact I].
    unfold last_bearing in Hk. apply find_some in Hk.
    apply in_rev. tauto.
  - rewrite <- (mapM_length _ _ _ O), <- (mapM_length _ _ _ U).
    apply NoDup_incl_length; [apply NoDup_first_occurrences|].
    intros k I. apply In_first_occurrences in I. exact I.
Qed.

(** X7. The first article, in list order, that has no URL or whose URL
    cannot be a dict key decides the outcome: the de-duplication raises what
    looking that URL up raises, [KeyError] for ["url"] when the entry is
    missing and [TypeError] when the URL is a list or an object. *)
Theorem remove_duplicates_first_bad_url (good rest : list value) (bad : value)
    (urls : list hkey) (e : exn) :
  mapM url_key good = inr urls ->
  url_key bad = inl e ->
  remove_duplicates (good ++ bad :: rest) = inl e
  /\ (forall d, bad = VDict d -> PyDict.getitem string_dec "url" d = None ->
        e = KeyError "url")
  /\ (forall d l, bad = VDict d ->
        PyDict.getitem string_dec "url" d = Some (VList l) -> e = TypeError).
Proof.
  intros G B. split; [|split].
  - unfold remove_duplicates. rewrite mapM_app, (url_pairs _ _ G). simpl.
    rewrite B. reflexivity.
  - intros d -> N. unfold url_key, subscript in B. rewrite N in B.
    inversion B. reflexivity.
  - intros d l -> S. unfold url_key, subscript in B. rewrite S in B.
    inversion B. reflexivity.
Qed.
End DeduplicationMore.

Lemma remove_duplicates_distinct_unchanged_witness :
  Py.mapM Notebook.url_key [Fixture.nuggets; Fixture.jokic; Fixture.parade]
  = inr [Py.HStr "https://example.com/nuggets"; Py.HStr "https://example.com/jokic";
         Py.HStr "https://example.com/parade"]
  /\ Notebook.remove_duplicates [Fixture.nuggets; Fixture.jokic; Fixture.parade]
     = inr [Fixture.nuggets; Fixture.jokic; Fixture.parade].
Proof.
  split; [reflexivity|].
  apply (remove_duplicates_distinct_unchanged
           [Fixture.nuggets; Fixture.jokic; Fixture.parade]
           [Py.HStr "https://example.com/nuggets"; Py.HStr "https://example.com/jokic";
            Py.HStr "https://example.com/parade"] eq_refl).
  repeat constructor; simpl; intuition discriminate.
Defined.

Lemma remove_duplicates_idempotent_witness :
  Notebook.remove_duplicates Fixture.accumulated
  = inr [Fixture.nuggets_updated; Fixture.jokic; Fixture.parade]
  /\ Notebook.remove_duplicates [Fixture.nuggets_updated; Fixture.jokic; Fixture.parade]
     = inr [Fixture.nuggets_updated; Fixture.jokic; Fixture.parade].
Proof.
  split; [reflexivity|].
  apply (remove_duplicates_idempotent Fixture.accumulated
           [Fixture.nuggets_updated; Fixture.jokic; Fixture.parade] eq_refl).
Defined.

Lemma remove_duplicates_selects_witness :
  Notebook.remove_duplicates Fixture.accumulated
  = inr [Fixture.nuggets_updated; Fixture.jokic; Fixture.parade]
  /\ incl [Fixture.nuggets_updated; Fixture.jokic; Fixture.parade] Fixture.accumulated
  /\ List.length [Fixture.nuggets_updated; Fixture.jokic; Fixture.parade]
     <= List.length Fixture.accumulated.
Proof.
  split; [reflexivity|].
  apply (remove_duplicates_selects Fixture.accumulated
           [Fixture.nuggets_updated; Fixture.jokic; Fixture.parade] eq_refl).
Defined.

Lemma remove_duplicates_first_bad_url_witness :
  Py.mapM Notebook.url_key [Fixture.nuggets] = inr [Py.HStr "https://example.com/nuggets"]
  /\ Notebook.url_key Faults.no_url = inl (Py.KeyError "url")
  /\ Notebook.remove_duplicates ([Fixture.nuggets] ++ Faults.no_url :: [Fixture.jokic])
     = inl (Py.KeyError "url").
Proof.
  split; [reflexivity|]. split; [reflexivity|].
  apply (remove_duplicates_first_bad_url [Fixture.nuggets] [Fixture.jokic]
           Faults.no_url [Py.HStr "https://example.com/nuggets"] (Py.KeyError "url")
           eq_refl eq_refl).
Defined.

(** ** Re-ranking: further properties *)

Section RankingMore.
Import Py Notebook.

Lemma StronglySorted_firstn_skipn {X : Type} (R : X -> X -> Prop) (n : nat)
    (l : list X) :
  StronglySorted R l ->
  Forall (fun x => Forall (fun y => R x y) (skipn n l)) (firstn n l).
Proof.
  revert l. induction n as [|n IH]; intros l S; [constructor|].
  destruct l as [|a l]; [constructor|]. simpl.
  inversion S as [|? ? S' F]; subst. constructor.
  - apply Forall_forall. intros y I. rewrite Forall_forall in F. apply F.
    rewrite <- (firstn_skipn n l). apply in_or_app. right. exact I.
  - apply IH. exact S'.
Qed.

(** X8. A list of pairs that is already in descending order of score comes
    back from the ranking unchanged, so ranking a ranked list again changes
    nothing. *)
Theorem sorted_articles_fixes_descending {A : Type} (scored : list (A * Q)) :
  (StronglySorted descending scored -> sorted_articles scored = scored)
  /\ sorted_articles (sorted_articles scored) = sorted_articles scored.
Proof.
  assert (G : forall l : list (A * Q),
             StronglySorted descending l -> sorted_articles l = l).
  { intros l S. apply stable_descending_unique.
    - apply sorted_articles_descending.
    - exact S.
    - intro s. apply filter_sorted. }
  split; [apply G|]. apply G. apply sorted_articles_descending.
Qed.

(** X9. No pair outside the first five of the ranking has a higher score
    than a pair among the first five: the articles used for the answer are
    five of the best-scored ones. *)
Theorem top_five_have_the_highest_scores {A : Type} (scored : list (A * Q)) :
  Forall (fun x => Forall (fun y => (snd y <= snd x)%Q)
                          (skipn 5 (sorted_articles scored)))
         (firstn 5 (sorted_articles scored)).
Proof.
  apply (StronglySorted_firstn_skipn descending).
  apply sorted_articles_descending.
Qed.

Variable env : capabilities.

Lemma embeddings_texts_length (texts : list string) (vectors : list vector) :
  embeddings env (VList (map VStr texts)) = inr vectors ->
  List.length vectors = List.length texts.
Proof.
  unfold embeddings. rewrite Embedding_create_texts. simpl. intro H.
  inversion H. rewrite !length_map. reflexivity.
Qed.

(** X10. When the ranking cells return, the ranked pairs hold every
    de-duplicated article exactly once (the articles of the pairs are a
    permutation of the input articles), in descending order of score: no
    article is dropped or repeated by the scoring and the sort. *)
Theorem rerank_keeps_every_article (articles : list value) (answer : value)
    (ranked : list (value * Q)) :
  rerank env articles answer = inr ranked ->
  Permutation articles (map fst ranked)
  /\ List.length ranked = List.length articles
  /\ StronglySorted descending ranked.
Proof.
  unfold rerank. intro H.
  apply bind_inr in H. destruct H as (answer_embedding & _ & H).
  apply bind_inr in H. destruct H as (vectors & V & H).
  apply bind_inr in H. destruct H as (similarities & S & H).
  inversion H; subst ranked. clear H.
  unfold article_embeddings in V. apply bind_inr in V.
  destruct V as (texts & T & V).
  apply embeddings_texts_length in V. apply mapM_length in T.
  unfold cosine_similarities in S. apply mapM_length in S.
  assert (L : List.length similarities = List.length articles) by congruence.
  assert (F : map fst (scored_articles articles similarities) = articles).
  { clear - L. unfold scored_articles. revert similarities L.
    induction articles as [|a l IH]; intros [|s sims] L; simpl in *;
      try discriminate; try reflexivity.
    f_equal. apply IH. congruence. }
  split; [|split].
  - rewrite <- F at 1. apply Permutation_map. apply sorted_perm.
  - unfold sorted_articles. rewrite <- (Permutation_length (sorted_perm _ _ _)).
    unfold scored_articles. rewrite length_combine, L. apply Nat.min_id.
  - apply sorted_articles_descending.
Qed.

(** X11. An article whose content is null makes the ranking cell raise
    [TypeError] when its text is built, whatever the other articles are:
    here the articles before it have string fields, and it has a title and
    a description. *)
Theorem rerank_null_content (good rest : list value) (bad title description : value)
    (fields : list (string * string * string)) (answer : string) :
  Forall2 has_text_fields good fields ->
  subscript bad "title" = inr title ->
  subscript bad "description" = inr description ->
  subscript bad "content" = inr VNone ->
  article_text env bad = inl TypeError
  /\ article_embeddings env (good ++ bad :: rest) = inl TypeError
  /\ rerank env (good ++ bad :: rest) (VStr answer) = inl TypeError.
Proof.
  intros G T D C.
  assert (B : article_text env bad = inl TypeError).
  { unfold article_text. rewrite T. simpl. rewrite D. simpl. rewrite C. reflexivity. }
  assert (E : article_embeddings env (good ++ bad :: rest) = inl TypeError).
  { unfold article_embeddings. rewrite mapM_app.
    replace (mapM (article_text env) good) with (@inr exn _ (map spaced_text fields)).
    - simpl. rewrite B. reflexivity.
    - apply eq_sym. apply mapM_Forall2.
      induction G as [|a f l l' Haf _ IH]; simpl; constructor; [|exact IH].
      apply article_text_spaced. exact Haf. }
  split; [exact B|]. split; [exact E|].
  unfold rerank. simpl. rewrite E. reflexivity.
Qed.
End RankingMore.

Lemma sorted_articles_fixes_descending_witness :
  StronglySorted Notebook.descending [(0, 9 # 10); (1, 1 # 2); (2, 1 # 2)]%Q
  /\ Notebook.sorted_articles [(0, 9 # 10); (1, 1 # 2); (2, 1 # 2)]%Q
     = [(0, 9 # 10); (1, 1 # 2); (2, 1 # 2)]%Q.
Proof.
  assert (S : StronglySorted Notebook.descending
                [(0, 9 # 10); (1, 1 # 2); (2, 1 # 2)]%Q).
  { repeat constructor; unfold Notebook.descending; simpl; apply Qle_bool_iff;
      reflexivity. }
  split; [exact S|].
  apply (proj1 (sorted_articles_fixes_descending
                  [(0, 9 # 10); (1, 1 # 2); (2, 1 # 2)]%Q) S).
Defined.

Lemma rerank_keeps_every_article_witness :
  Notebook.rerank Fixture.env [Fixture.nuggets_updated; Fixture.jokic; Fixture.parade]
    (Py.VStr "TEAM NAME won. The MVP was PLAYER NAME.")
  = inr [(Fixture.nuggets_updated, 2926 # 1); (Fixture.parade, 2380 # 1);
         (Fixture.jokic, 2107 # 1)]%Q
  /\ Permutation [Fixture.nuggets_updated; Fixture.jokic; Fixture.parade]
       (map fst [(Fixture.nuggets_updated, 2926 # 1); (Fixture.parade, 2380 # 1);
                 (Fixture.jokic, 2107 # 1)]%Q).
Proof.
  split; [reflexivity|].
  apply (rerank_keeps_every_article Fixture.env
           [Fixture.nuggets_updated; Fixture.jokic; Fixture.parade]
           (Py.VStr "TEAM NAME won. The MVP was PLAYER NAME.")
           [(Fixture.nuggets_updated, 2926 # 1); (Fixture.parade, 2380 # 1);
            (Fixture.jokic, 2107 # 1)]%Q eq_refl).
Defined.

Lemma rerank_null_content_witness :
  Forall2 Notebook.has_text_fields [Fixture.nuggets]
    [("Nuggets win", "Denver beat Miami 94-89", "Denver won its first title.")]
  /\ Py.subscript Faults.null_content "content" = inr Py.VNone
  /\ Notebook.rerank Fixture.env ([Fixture.nuggets] ++ Faults.null_content :: [Fixture.jokic])
       (Py.VStr "TEAM NAME won.")
     = inl Py.TypeError.
Proof.
  assert (G : Forall2 Notebook.has_text_fields [Fixture.nuggets]
                [("Nuggets win", "Denver beat Miami 94-89", "Denver won its first title.")]).
  { repeat constructor. }
  split; [exact G|]. split; [reflexivity|].
  apply (rerank_null_content Fixture.env [Fixture.nuggets] [Fixture.jokic]
           Faults.null_content (Py.VStr "Photos") (Py.VStr "A gallery")
           [("Nuggets win", "Denver beat Miami 94-89", "Denver won its first title.")]
           "TEAM NAME won." G eq_refl eq_refl eq_refl).
Defined.

(** ** Streaming: further properties *)

Section StreamingMore.
Import Py Notebook.

Lemma stream_loop_app (pre rest : list chunk) (st : stream_state) :
  snd (stream_loop pre st) = None ->
  stream_loop (pre ++ rest) st = stream_loop rest (fst (stream_loop pre st)).
Proof.
  revert st. induction pre as [|c pre IH]; intros st H; [reflexivity|].
  simpl in *. destruct (stream_step c st) as [st' [e|]]; [discriminate|].
  apply IH. exact H.
Qed.

(** The loop on text fragments, from any state. *)
Lemma stream_loop_texts (completion : list chunk) (fragments : list string)
    (st : stream_state) :
  map fragment completion = map VStr fragments ->
  snd (stream_loop completion st) = None
  /\ text (fst (stream_loop completion st)) = (text st ++ joined fragments)%string.
Proof.
  intro E. destruct completion as [|c rest].
  - destruct fragments; [|discriminate]. simpl. rewrite append_nil_r. auto.
  - rewrite (stream_loop_text (c :: rest) fragments st E); [|discriminate]. auto.
Qed.

Lemma joined_app (l1 l2 : list string) :
  joined (l1 ++ l2) = (joined l1 ++ joined l2)%string.
Proof.
  induction l1 as [|s l1 IH]; [reflexivity|].
  change ((s :: l1) ++ l2) with (s :: (l1 ++ l2)).
  rewrite !joined_cons, IH, append_assoc. reflexivity.
Qed.

(** X12. A fragment whose content is not a string (a null content, for
    one) stops the stream with [TypeError]: the fragments after it are not
    read, and the text and the output area stay as the text fragments before
    it left them. *)
Theorem stream_stops_at_non_text (pre rest : list chunk) (bad : chunk)
    (fragments : list string) (st : stream_state) :
  map fragment pre = map VStr fragments ->
  (forall s, fragment bad <> VStr s) ->
  stream_loop (pre ++ bad :: rest) st = (fst (stream_loop pre st), Some TypeError)
  /\ text (fst (stream_loop pre st)) = (text st ++ joined fragments)%string.
Proof.
  intros E N. destruct (stream_loop_texts pre fragments st E) as (S & T).
  split; [|exact T].
  rewrite (stream_loop_app pre (bad :: rest) st S). simpl.
  unfold stream_step. destruct (fragment bad) as [| | |s| |] eqn:F;
    try reflexivity.
  exfalso. apply (N s). reflexivity.
Qed.

(** X13. While text fragments stream in, the text only grows at its end:
    the text after [m] fragments is the text after [n <= m] fragments
    followed by the contents of the fragments in between. *)
Theorem stream_text_grows (completion : list chunk) (fragments : list string)
    (n m : nat) :
  map fragment completion = map VStr fragments ->
  n <= m ->
  text (fst (stream_answer (firstn m completion)))
  = (text (fst (stream_answer (firstn n completion)))
     ++ joined (skipn n (firstn m fragments)))%string.
Proof.
  intros E L. unfold stream_answer.
  assert (F : forall k, map fragment (firstn k completion) = map VStr (firstn k fragments)).
  { intro k. rewrite <- !firstn_map, E. reflexivity. }
  destruct (stream_loop_texts _ _ {| text := ""; area := {| shown := []; clear_pending := false |} |} (F m)) as (_ & Tm).
  destruct (stream_loop_texts _ _ {| text := ""; area := {| shown := []; clear_pending := false |} |} (F n)) as (_ & Tn).
  rewrite Tm, Tn. simpl. rewrite <- joined_app. f_equal.
  rewrite <- (firstn_skipn n (firstn m fragments)) at 1. f_equal.
  rewrite firstn_firstn, Nat.min_l by exact L. reflexivity.
Qed.
End StreamingMore.

Lemma stream_stops_at_non_text_witness :
  map Notebook.fragment (firstn 2 Faults.broken_completion)
  = map Py.VStr ["Denver"; " won"]
  /\ Notebook.stream_answer Faults.broken_completion
     = ({| Notebook.text := "Denver won";
           Notebook.area := {| Notebook.shown := ["Denver won"];
                               Notebook.clear_pending := false |} |},
        Some Py.TypeError).
Proof.
  split; [reflexivity|].
  apply (proj1 (stream_stops_at_non_text
                  (firstn 2 Faults.broken_completion)
                  (skipn 3 Faults.broken_completion)
                  {| Notebook.delta := [("content", Py.VNone)] |}
                  ["Denver"; " won"]
                  {| Notebook.text := "";
                     Notebook.area := {| Notebook.shown := [];
                                         Notebook.clear_pending := false |} |}
                  eq_refl
                  (fun s (H : Py.VNone = Py.VStr s) =>
                     eq_ind Py.VNone
                       (fun v => match v with Py.VNone => True | _ => False end)
                       I _ H))).
Defined.

Lemma stream_text_grows_witness :
  map Notebook.fragment Fixture.completion = map Py.VStr [""; "Denver"; " won."; ""]
  /\ 2 <= 3
  /\ Notebook.text (fst (Notebook.stream_answer (firstn 3 Fixture.completion)))
     = (Notebook.text (fst (Notebook.stream_answer (firstn 2 Fixture.completion)))
        ++ Notebook.joined (skipn 2 (firstn 3 [""; "Denver"; " won."; ""])))%string.
Proof.
  split; [reflexivity|]. split; [lia|].
  apply (stream_text_grows Fixture.completion [""; "Denver"; " won."; ""] 2 3 eq_refl).
  lia.
Defined.

(** ** How the cells compose *)

Section Composition.
Import Py Notebook.
Variable env : capabilities.
Variable USER_QUESTION : string.

(** X14. When the expansion returns the queries and one of them is
    answered with a status other than ["ok"], after successful searches for
    the queries before it, the whole run ends with [Exception] carrying the
    endpoint's message: no hypothetical answer is asked for, nothing is
    ranked and no answer is generated. *)
Theorem notebook_ends_on_search_failure (before after : list value)
    (found : list (list value)) (query response message : value) :
  queries env USER_QUESTION = inr (before ++ query :: after) ->
  Forall2 (search_succeeds env) before found ->
  search_fails env query response message ->
  notebook env USER_QUESTION = inl (Exception message).
Proof.
  intros Q H F. unfold notebook. rewrite Q. simpl. unfold search_cell.
  rewrite (search_loop_succeeds env before (query :: after) found _ H). simpl.
  rewrite (search_step_fails env query response message _ F). reflexivity.
Qed.

(** X15. A model output that is not JSON, that has no ["queries"] entry,
    or whose ["queries"] entry is not a list ends the run in the expansion:
    with the exception of [json.loads], with [KeyError] for ["queries"], or
    with [AttributeError] from [append]. *)
Theorem notebook_ends_on_bad_expansion (text : string) :
  chat_completion env
    {| model := "gpt-3.5-turbo";
       messages := [("system", "Output only valid JSON");
                    ("user", QUERIES_INPUT USER_QUESTION)];
       temperature := 1 # 2;
       stream := false |} = inr text ->
  (forall e, json_loads env text = inl e -> notebook env USER_QUESTION = inl e)
  /\ (forall d, json_loads env text = inr (VDict d) ->
        PyDict.getitem string_dec "queries" d = None ->
        notebook env USER_QUESTION = inl (KeyError "queries"))
  /\ (forall d v, json_loads env text = inr (VDict d) ->
        PyDict.getitem string_dec "queries" d = Some v ->
        (forall l, v <> VList l) ->
        notebook env USER_QUESTION = inl AttributeError).
Proof.
  intro C. unfold notebook, queries, json_gpt. unfold GPT_MODEL. rewrite C. simpl.
  split; [|split].
  - intros e J. rewrite J. reflexivity.
  - intros d J G. rewrite J. simpl. rewrite G. reflexivity.
  - intros d v J G N. rewrite J. simpl. rewrite G. simpl.
    destruct v as [| | | |l|]; try reflexivity. exfalso. apply (N l). reflexivity.
Qed.
End Composition.

Lemma notebook_ends_on_search_failure_witness :
  Notebook.queries (Faults.with_endpoint (fun _ => inr Fixture.error_response))
    Notebook.NBA_QUESTION
  = inr ([] ++ Py.VStr "NBA finals"
            :: [Py.VStr "Finals MVP"; Py.VStr Notebook.NBA_QUESTION])
  /\ Notebook.notebook (Faults.with_endpoint (fun _ => inr Fixture.error_response))
       Notebook.NBA_QUESTION
     = inl (Py.Exception (Py.VStr "You have made too many requests recently.")).
Proof.
  split; [reflexivity|].
  apply (notebook_ends_on_search_failure
           (Faults.with_endpoint (fun _ => inr Fixture.error_response))
           Notebook.NBA_QUESTION []
           [Py.VStr "Finals MVP"; Py.VStr Notebook.NBA_QUESTION] []
           (Py.VStr "NBA finals") Fixture.error_response
           (Py.VStr "You have made too many requests recently.") eq_refl).
  - constructor.
  - repeat split. exists (Py.VStr "error"). split; reflexivity.
Defined.

Lemma notebook_ends_on_bad_expansion_witness :
  Notebook.json_loads (Faults.with_model_output "{}") "{}" = inr (Py.VDict [])
  /\ Notebook.notebook (Faults.with_model_output "{}") Notebook.NBA_QUESTION
     = inl (Py.KeyError "queries").
Proof.
  split; [reflexivity|].
  apply (proj1 (proj2 (notebook_ends_on_bad_expansion (Faults.with_model_output "{}")
                         Notebook.NBA_QUESTION "{}" eq_refl)) [] eq_refl eq_refl).
Defined.

(** ** The printing statements *)

Section PrintFacts.
Import Py Notebook Printing.
Variable env : capabilities.

Lemma print_article_block (article : value) (fields : string * string * string)
    (out : string) :
  has_text_fields article fields ->
  print_article env article out = ((out ++ article_block fields)%string, inr tt).
Proof.
  destruct fields as [[title description] content]. intros (T & D & C).
  unfold print_article, io_bind, eval, print, write. rewrite T, D, C. simpl.
  rewrite !append_assoc. simpl. rewrite !append_assoc. reflexivity.
Qed.

Lemma for_each_app {A : Type} (body : A -> io unit) (l1 l2 : list A) (out : string) :
  for_each body (l1 ++ l2) out
  = match for_each body l1 out with
    | (out', inr _) => for_each body l2 out'
    | (out', inl e) => (out', inl e)
    end.
Proof.
  revert out. induction l1 as [|a l1 IH]; intro out; [reflexivity|].
  simpl. unfold io_bind. destruct (body a out) as [out' [e|[]]]; [reflexivity|].
  apply IH.
Qed.

(** The search loop on articles with string fields: one block and an empty
    line per article. *)
Lemma search_blocks (articles : list value)
    (fields : list (string * string * string)) (out : string) :
  Forall2 has_text_fields articles fields ->
  for_each (fun article => _ <~ print_article env article ;; print env []) articles out
  = ((out ++ String.concat "" (map (fun f => article_block f ++ nl) fields))%string,
     inr tt).
Proof.
  intro H. revert out. induction H as [|a f l l' Haf _ IH]; intro out.
  - simpl. rewrite append_nil_r. reflexivity.
  - simpl for_each. unfold io_bind at 1. unfold io_bind at 1.
    rewrite (print_article_block a f out Haf). unfold print at 1, write. simpl map.
    rewrite IH. f_equal.
    change (String.concat "" (map (fun f0 => article_block f0 ++ nl) (f :: l')))%string
      with (joined ((article_block f ++ nl)%string
                      :: map (fun f0 => (article_block f0 ++ nl)%string) l')).
    rewrite joined_cons. unfold joined. simpl String.concat at 1.
    rewrite !append_assoc. reflexivity.
Qed.

(** X16. The prints of the search cell, for articles whose first five have
    strings as title, description and content: the number of articles, a
    heading, then for each of the first five articles only (all when there
    are fewer) its title, its description and the first 100 characters of
    its content (code points: 100 of them, or all when the content is
    shorter), always followed by ["..."] even when nothing was cut, and an
    empty line.  Articles after the fifth are not looked at. *)
Theorem search_prints_first_five (articles : list value)
    (fields : list (string * string * string)) (out : string) :
  Forall2 has_text_fields (firstn 5 articles) fields ->
  search_prints env articles out
  = ((out
      ++ "Total number of articles: " ++ repr env (len articles) ++ nl
      ++ "Top 5 articles of query 1: " ++ nl ++ nl
      ++ String.concat "" (map (fun f => article_block f ++ nl) fields))%string,
     inr tt)
  /\ List.length fields = Nat.min 5 (List.length articles)
  /\ Forall (fun f =>
               let '(title, description, content) := f in
               article_block f
               = ("Title: " ++ title ++ nl
                  ++ "Description: " ++ description ++ nl
                  ++ "Content: " ++ take_chars 100 content ++ "..." ++ nl)%string
               /\ char_count (take_chars 100 content)
                  = Nat.min 100 (char_count content)
               /\ (take_chars 100 content ++ drop_chars 100 content)%string
                  = content)
            fields.
Proof.
  intro H. split; [|split].
  - unfold search_prints, io_bind. unfold print at 1 2, write. simpl.
    rewrite (search_blocks _ _ _ H). f_equal.
    rewrite !append_assoc. simpl. rewrite !append_assoc. reflexivity.
  - rewrite <- (Forall2_length H), length_firstn. reflexivity.
  - apply Forall_forall. intros [[title description] content] _.
    repeat split.
    + apply char_count_take_chars.
    + apply take_drop_chars.
Qed.

(** X17. When one of the first five articles has a null content, the
    prints of the search cell raise [TypeError] in the middle of that
    article's block: the blocks of the articles before it and its own title
    and description lines are already written. *)
Theorem search_prints_null_content (good rest : list value) (bad title description : value)
    (fields : list (string * string * string)) (out : string) :
  Forall2 has_text_fields good fields ->
  List.length good < 5 ->
  subscript bad "title" = inr title ->
  subscript bad "description" = inr description ->
  subscript bad "content" = inr VNone ->
  search_prints env (good ++ bad :: rest) out
  = ((out
      ++ "Total number of articles: " ++ repr env (len (good ++ bad :: rest)) ++ nl
      ++ "Top 5 articles of query 1: " ++ nl ++ nl
      ++ String.concat "" (map (fun f => article_block f ++ nl) fields)
      ++ "Title: " ++ str (repr env) title ++ nl
      ++ "Description: " ++ str (repr env) description ++ nl)%string,
     inl TypeError).
Proof.
  intros G L T D C.
  assert (F : firstn 5 (good ++ bad :: rest)
              = good ++ bad :: firstn (4 - List.length good) rest).
  { rewrite firstn_app. rewrite firstn_all2 by lia. f_equal.
    replace (5 - List.length good) with (S (4 - List.length good)) by lia.
    reflexivity. }
  unfold search_prints. rewrite F.
  set (loop := for_each _ (good ++ _)).
  unfold io_bind, print, write. simpl. subst loop.
  rewrite for_each_app, (search_blocks _ _ _ G). simpl for_each.
  unfold io_bind, print_article, io_bind, eval, print, write.
  rewrite T, D, C. simpl. f_equal.
  repeat first [rewrite append_assoc | progress simpl]. reflexivity.
Qed.

(** The ranking loop on pairs whose articles have string fields. *)
Lemma ranking_blocks (sorted : list (value * Q))
    (fields : list (string * string * string)) (out : string) :
  Forall2 (fun x f => has_text_fields (fst x) f) sorted fields ->
  for_each (fun x : value * Q =>
              let (article, score) := x in
              _ <~ print_article env article ;;
              _ <~ print env [VStr "Score:"; VNum score] ;;
              print env [])
           sorted out
  = ((out ++ String.concat ""
               (map (fun p => article_block (snd p) ++ "Score: "
                              ++ repr env (VNum (snd (fst p))) ++ nl ++ nl)
                    (combine sorted fields)))%string,
     inr tt).
Proof.
  intro H. revert out. induction H as [|[a s] f l l' Haf _ IH]; intro out.
  - simpl. rewrite append_nil_r. reflexivity.
  - simpl for_each. unfold io_bind at 1. unfold io_bind at 1.
    simpl in Haf. rewrite (print_article_block a f out Haf).
    unfold io_bind at 1. unfold print at 1 2, write. simpl map.
    rewrite IH. f_equal.
    match goal with
    | |- _ = (out ++ String.concat "" (?b :: ?bs))%string =>
        change (String.concat "" (b :: bs)) with (joined (b :: bs));
        rewrite joined_cons; unfold joined
    end.
    simpl String.concat at 1.
    repeat first [rewrite append_assoc | progress simpl]. reflexivity.
Qed.

(** X18. The prints of the ranking cell, for ranked pairs whose first five
    articles have strings as title, description and content: a heading,
    then for each of the first five pairs only (all when there are fewer),
    in ranking order, the article's title, description and the first 100
    characters (code points) of its content followed by ["..."], its score
    and an empty line.  Pairs after the fifth are not looked at. *)
Theorem ranking_prints_first_five (sorted : list (value * Q))
    (fields : list (string * string * string)) (out : string) :
  Forall2 (fun x f => has_text_fields (fst x) f) (firstn 5 sorted) fields ->
  ranking_prints env sorted out
  = ((out
      ++ "Top 5 articles: " ++ nl ++ nl
      ++ String.concat ""
           (map (fun p => article_block (snd p) ++ "Score: "
                          ++ repr env (VNum (snd (fst p))) ++ nl ++ nl)
                (combine (firstn 5 sorted) fields)))%string,
     inr tt)
  /\ List.length fields = Nat.min 5 (List.length sorted)
  /\ Forall (fun f =>
               let '(title, description, content) := f in
               article_block f
               = ("Title: " ++ title ++ nl
                  ++ "Description: " ++ description ++ nl
                  ++ "Content: " ++ take_chars 100 content ++ "..." ++ nl)%string
               /\ char_count (take_chars 100 content)
                  = Nat.min 100 (char_count content)
               /\ (take_chars 100 content ++ drop_chars 100 content)%string
                  = content)
            fields.
Proof.
  intro H. split; [|split].
  - unfold ranking_prints, io_bind. unfold print at 1, write. simpl.
    rewrite (ranking_blocks _ _ _ H). f_equal.
    repeat first [rewrite append_assoc | progress simpl]. reflexivity.
  - rewrite <- (Forall2_length H), length_firstn. reflexivity.
  - apply Forall_forall. intros [[title description] content] _.
    repeat split.
    + apply char_count_take_chars.
    + apply take_drop_chars.
Qed.
End PrintFacts.

Lemma seven_fields :
  Forall2 Notebook.has_text_fields (firstn 5 Faults.seven_articles)
    Faults.first_five_fields.
Proof. repeat constructor. Qed.

Lemma search_prints_first_five_witness :
  Forall2 Notebook.has_text_fields (firstn 5 Faults.seven_articles)
    Faults.first_five_fields
  /\ Printing.search_prints (Faults.with_repr Faults.sample_repr)
       Faults.seven_articles ""
     = ("Total number of articles: 7
Top 5 articles of query 1: 

Title: Jokić leads Denver
Description: Game 5 report
Content: Nikola Jokić scored 28 points as Denver — the “Mile High City” — beat Miami 94–89 in Game 5 to win i...

Title: Nuggets win first title
Description: Denver beat Miami 94-89
Content: Denver won its first title....

Title: Jokic named MVP
Description: Finals MVP
Content: Nikola Jokic was named MVP....

Title: Parade in Denver
Description: Fans celebrate
Content: Thousands watched the parade....

Title: Nuggets win
Description: Denver beat Miami 94-89
Content: Denver won its first title....

", inr tt)
  /\ List.length Faults.first_five_fields
     = Nat.min 5 (List.length Faults.seven_articles).
Proof.
  split; [exact seven_fields|]. split.
  - rewrite (proj1 (search_prints_first_five (Faults.with_repr Faults.sample_repr)
                      Faults.seven_articles Faults.first_five_fields ""
                      seven_fields)).
    reflexivity.
  - apply (proj1 (proj2 (search_prints_first_five
                           (Faults.with_repr Faults.sample_repr)
                           Faults.seven_articles Faults.first_five_fields ""
                           seven_fields))).
Defined.

Lemma search_prints_null_content_witness :
  Forall2 Notebook.has_text_fields [Fixture.jokic]
    [("Jokic named MVP", "Finals MVP", "Nikola Jokic was named MVP.")]
  /\ List.length [Fixture.jokic] < 5
  /\ Py.subscript Faults.null_content "content" = inr Py.VNone
  /\ snd (Printing.search_prints Fixture.env
            ([Fixture.jokic] ++ Faults.null_content :: [Fixture.parade]) "")
     = inl Py.TypeError.
Proof.
  assert (G : Forall2 Notebook.has_text_fields [Fixture.jokic]
                [("Jokic named MVP", "Finals MVP", "Nikola Jokic was named MVP.")]).
  { repeat constructor. }
  assert (L : List.length [Fixture.jokic] < 5) by (simpl; lia).
  split; [exact G|]. split; [exact L|]. split; [reflexivity|].
  rewrite (search_prints_null_content Fixture.env [Fixture.jokic] [Fixture.parade]
             Faults.null_content (Py.VStr "Photos") (Py.VStr "A gallery")
             [("Jokic named MVP", "Finals MVP", "Nikola Jokic was named MVP.")]
             "" G L eq_refl eq_refl eq_refl).
  reflexivity.
Defined.

Lemma seven_ranked_fields :
  Forall2 (fun x f => Notebook.has_text_fields (fst x) f)
    (firstn 5 Faults.seven_ranked) Faults.first_five_fields.
Proof. repeat constructor. Qed.

Lemma ranking_prints_first_five_witness :
  Forall2 (fun x f => Notebook.has_text_fields (fst x) f)
    (firstn 5 Faults.seven_ranked) Faults.first_five_fields
  /\ Notebook.sorted_articles Faults.seven_ranked = Faults.seven_ranked
  /\ Printing.ranking_prints (Faults.with_repr Faults.sample_repr)
       Faults.seven_ranked ""
     = ("Top 5 articles: 

Title: Jokić leads Denver
Description: Game 5 report
Content: Nikola Jokić scored 28 points as Denver — the “Mile High City” — beat Miami 94–89 in Game 5 to win i...
Score: 0.9

Title: Nuggets win first title
Description: Denver beat Miami 94-89
Content: Denver won its first title....
Score: 0.8

Title: Jokic named MVP
Description: Finals MVP
Content: Nikola Jokic was named MVP....
Score: 0.8

Title: Parade in Denver
Description: Fans celebrate
Content: Thousands watched the parade....
Score: 0.7

Title: Nuggets win
Description: Denver beat Miami 94-89
Content: Denver won its first title....
Score: 0.5

", inr tt).
Proof.
  split; [exact seven_ranked_fields|]. split; [reflexivity|].
  rewrite (proj1 (ranking_prints_first_five (Faults.with_repr Faults.sample_repr)
                    Faults.seven_ranked Faults.first_five_fields ""
                    seven_ranked_fields)).
  reflexivity.
Defined.

(** What the search cell prints for the sample articles. *)
Example search_prints_sample :
  Printing.search_prints Fixture.env Faults.deduplicated ""
  = ("Total number of articles: <repr>
Top 5 articles of query 1: 

Title: Nuggets win first title
Description: Denver beat Miami 94-89
Content: Denver won its first title....

Title: Jokic named MVP
Description: Finals MVP
Content: Nikola Jokic was named MVP....

Title: Parade in Denver
Description: Fans celebrate
Content: Thousands watched the parade....

", inr tt).
Proof. reflexivity. Qed.

(** A search cell whose prints raise: the articles are already
    de-duplicated, and the output stops after the description of the article
    with the null content. *)
Example search_cell_printed_null_content :
  Printing.search_cell_printed (Faults.with_endpoint Faults.null_content_endpoint)
    [Py.VStr "NBA finals"]
  = ({| Notebook.st_articles := [Fixture.jokic; Faults.null_content; Fixture.parade];
        Notebook.st_requests :=
          [Notebook.search_params (Faults.with_endpoint Faults.null_content_endpoint)
             (Py.VStr "NBA finals")] |},
     "Total number of articles: <repr>
Top 5 articles of query 1: 

Title: Jokic named MVP
Description: Finals MVP
Content: Nikola Jokic was named MVP....

Title: Photos
Description: A gallery
", Some Py.TypeError).
Proof. reflexivity. Qed.

(** ** The run with its prints *)

Section PrintedRun.
Import Py Notebook Printing.
Variable env : capabilities.
Variable USER_QUESTION : string.

(** A run that ends in the expansion or in the search loop ends the same
    way with the prints, and writes nothing. *)
Lemma notebook_printed_before_prints (e : exn) (out : string) :
  queries env USER_QUESTION = inl e
  \/ (exists generated st,
        queries env USER_QUESTION = inr generated
        /\ search_cell env generated = (st, Some e)) ->
  notebook env USER_QUESTION = inl e
  /\ notebook_printed env USER_QUESTION out = (out, inl e).
Proof.
  unfold notebook, notebook_printed, io_bind, eval, run_search_cell.
  intros [Q|(generated & st & Q & S)]; rewrite Q; simpl.
  - auto.
  - rewrite S. auto.
Qed.

(** When the prints of the search cell raise, the run ends there, with
    what they had written: no hypothetical answer, no ranking, no answer. *)
Lemma notebook_printed_ends_in_search_prints (generated : list value)
    (st : search_state) (e : exn) (out out' : string) :
  queries env USER_QUESTION = inr generated ->
  search_cell env generated = (st, None) ->
  search_prints env (st_articles st) out = (out', inl e) ->
  notebook_printed env USER_QUESTION out = (out', inl e).
Proof.
  intros Q S P. unfold notebook_printed, io_bind, eval, run_search_cell.
  rewrite Q, S, P. reflexivity.
Qed.

(** When no print raises, the prints change nothing to the outcome. *)
Lemma notebook_printed_outcome (generated : list value) (st : search_state)
    (answer : value) (ranked : list (value * Q)) (out out1 out2 : string) :
  queries env USER_QUESTION = inr generated ->
  search_cell env generated = (st, None) ->
  search_prints env (st_articles st) out = (out1, inr tt) ->
  hypothetical_answer env USER_QUESTION = inr answer ->
  rerank env (st_articles st) answer = inr ranked ->
  ranking_prints env ranked out1 = (out2, inr tt) ->
  notebook_printed env USER_QUESTION out = (out2, notebook env USER_QUESTION).
Proof.
  intros Q S P H R P'.
  unfold notebook_printed, notebook, io_bind, eval, run_search_cell.
  rewrite Q. simpl. rewrite S, P, H. simpl. rewrite R. simpl. rewrite P'.
  reflexivity.
Qed.
End PrintedRun.

(** A search that finds an article whose content is a list: the prints of
    the search cell raise [TypeError] and the run ends there. *)
Example notebook_printed_list_content :
  Printing.notebook_printed
    (Faults.with_endpoint
       (fun _ => inr (Fixture.ok_response
                        [Py.VDict [("title", Py.VStr "Untitled");
                                   ("description", Py.VStr "Nothing");
                                   ("content", Py.VList [Py.VStr "a"]);
                                   ("url", Py.VStr "https://example.com/list")]])))
    Notebook.NBA_QUESTION ""
  = ("Total number of articles: <repr>
Top 5 articles of query 1: 

Title: Untitled
Description: Nothing
", inl Py.TypeError).
Proof. reflexivity. Qed.

(** The loop on a query list whose second query fails: two requests, the
    articles of the first query, and nothing of the third. *)
Example search_loop_stops_sample :
  Notebook.search_loop Fixture.env
    [Py.VStr "NBA finals"; Py.VStr "NBA trades"; Py.VStr "Finals MVP"]
    {| Notebook.st_articles := []; Notebook.st_requests := [] |}
  = ({| Notebook.st_articles := [Fixture.nuggets; Fixture.jokic];
        Notebook.st_requests :=
          map (Notebook.search_params Fixture.env)
              [Py.VStr "NBA finals"; Py.VStr "NBA trades"] |},
     Some (Py.Exception (Py.VStr "You have made too many requests recently."))).
Proof. reflexivity. Qed.
